(** * Diesel schema generation from a SQLite catalog: [generate_schema.py]

    A shallow embedding of the script's two functions,
    [sql_type_to_diesel_type] and [generate_schema], and of its entry point,
    together with the properties its specification states about them.

    A Python [str] is a sequence of Unicode code points.  The declared type
    of a column, the only text the script changes the letter case of, is
    modelled as such a sequence ([ustring]); [upper] is [str.upper] with the
    full upper-case mapping of Unicode.  The identifiers of the catalog and
    the text the script assembles are only copied, compared for equality and
    concatenated: they are modelled by [string], the bytes of their UTF-8
    form. *)

From Stdlib Require Import ZArith NArith Ascii String.
From stdpp Require Import base tactics option list sorting strings gmap.

Local Open Scope string_scope.
Local Open Scope list_scope.

(** ** Python string primitives *)

(** A [str] as the sequence of its code points. *)
Abbreviation ustring := (list N).

(** The code points of a literal of the script (all of them are ASCII). *)
Definition of_string (s : string) : ustring :=
  N_of_ascii <$> list_ascii_of_string s.

Coercion of_string : string >-> list.

(** The characters that [str.upper] changes, each with its upper-case form,
    in ascending order: the full upper-case mapping of Unicode 14.0.0, the
    version of CPython 3.11.  Every other code point is its own upper-case
    form. *)
Definition unicode_upper : list (N * list N) :=
  [
    (97, [65]); (98, [66]); (99, [67]); (100, [68]); (101, [69]); (102, [70]);
    (103, [71]); (104, [72]); (105, [73]); (106, [74]); (107, [75]);
    (108, [76]); (109, [77]); (110, [78]); (111, [79]); (112, [80]);
    (113, [81]); (114, [82]); (115, [83]); (116, [84]); (117, [85]);
    (118, [86]); (119, [87]); (120, [88]); (121, [89]); (122, [90]);
    (181, [924]); (223, [83; 83]); (224, [192]); (225, [193]); (226, [194]);
    (227, [195]); (228, [196]); (229, [197]); (230, [198]); (231, [199]);
    (232, [200]); (233, [201]); (234, [202]); (235, [203]); (236, [204]);
    (237, [205]); (238, [206]); (239, [207]); (240, [208]); (241, [209]);
    (242, [210]); (243, [211]); (244, [212]); (245, [213]); (246, [214]);
    (248, [216]); (249, [217]); (250, [218]); (251, [219]); (252, [220]);
    (253, [221]); (254, [222]); (255, [376]); (257, [256]); (259, [258]);
    (261, [260]); (263, [262]); (265, [264]); (267, [266]); (269, [268]);
    (271, [270]); (273, [272]); (275, [274]); (277, [276]); (279, [278]);
    (281, [280]); (283, [282]); (285, [284]); (287, [286]); (289, [288]);
    (291, [290]); (293, [292]); (295, [294]); (297, [296]); (299, [298]);
    (301, [300]); (303, [302]); (305, [73]); (307, [306]); (309, [308]);
    (311, [310]); (314, [313]); (316, [315]); (318, [317]); (320, [319]);
    (322, [321]); (324, [323]); (326, [325]); (328, [327]); (329, [700; 78]);
    (331, [330]); (333, [332]); (335, [334]); (337, [336]); (339, [338]);
    (341, [340]); (343, [342]); (345, [344]); (347, [346]); (349, [348]);
    (351, [350]); (353, [352]); (355, [354]); (357, [356]); (359, [358]);
    (361, [360]); (363, [362]); (365, [364]); (367, [366]); (369, [368]);
    (371, [370]); (373, [372]); (375, [374]); (378, [377]); (380, [379]);
    (382, [381]); (383, [83]); (384, [579]); (387, [386]); (389, [388]);
    (392, [391]); (396, [395]); (402, [401]); (405, [502]); (409, [408]);
    (410, [573]); (414, [544]); (417, [416]); (419, [418]); (421, [420]);
    (424, [423]); (429, [428]); (432, [431]); (436, [435]); (438, [437]);
    (441, [440]); (445, [444]); (447, [503]); (453, [452]); (454, [452]);
    (456, [455]); (457, [455]); (459, [458]); (460, [458]); (462, [461]);
    (464, [463]); (466, [465]); (468, [467]); (470, [469]); (472, [471]);
    (474, [473]); (476, [475]); (477, [398]); (479, [478]); (481, [480]);
    (483, [482]); (485, [484]); (487, [486]); (489, [488]); (491, [490]);
    (493, [492]); (495, [494]); (496, [74; 780]); (498, [497]); (499, [497]);
    (501, [500]); (505, [504]); (507, [506]); (509, [508]); (511, [510]);
    (513, [512]); (515, [514]); (517, [516]); (519, [518]); (521, [520]);
    (523, [522]); (525, [524]); (527, [526]); (529, [528]); (531, [530]);
    (533, [532]); (535, [534]); (537, [536]); (539, [538]); (541, [540]);
    (543, [542]); (547, [546]); (549, [548]); (551, [550]); (553, [552]);
    (555, [554]); (557, [556]); (559, [558]); (561, [560]); (563, [562]);
    (572, [571]); (575, [11390]); (576, [11391]); (578, [577]); (583, [582]);
    (585, [584]); (587, [586]); (589, [588]); (591, [590]); (592, [11375]);
    (593, [11373]); (594, [11376]); (595, [385]); (596, [390]); (598, [393]);
    (599, [394]); (601, [399]); (603, [400]); (604, [42923]); (608, [403]);
    (609, [42924]); (611, [404]); (613, [42893]); (614, [42922]);
    (616, [407]); (617, [406]); (618, [42926]); (619, [11362]);
    (620, [42925]); (623, [412]); (625, [11374]); (626, [413]); (629, [415]);
    (637, [11364]); (640, [422]); (642, [42949]); (643, [425]);
    (647, [42929]); (648, [430]); (649, [580]); (650, [433]); (651, [434]);
    (652, [581]); (658, [439]); (669, [42930]); (670, [42928]); (837, [921]);
    (881, [880]); (883, [882]); (887, [886]); (891, [1021]); (892, [1022]);
    (893, [1023]); (912, [921; 776; 769]); (940, [902]); (941, [904]);
    (942, [905]); (943, [906]); (944, [933; 776; 769]); (945, [913]);
    (946, [914]); (947, [915]); (948, [916]); (949, [917]); (950, [918]);
    (951, [919]); (952, [920]); (953, [921]); (954, [922]); (955, [923]);
    (956, [924]); (957, [925]); (958, [926]); (959, [927]); (960, [928]);
    (961, [929]); (962, [931]); (963, [931]); (964, [932]); (965, [933]);
    (966, [934]); (967, [935]); (968, [936]); (969, [937]); (970, [938]);
    (971, [939]); (972, [908]); (973, [910]); (974, [911]); (976, [914]);
    (977, [920]); (981, [934]); (982, [928]); (983, [975]); (985, [984]);
    (987, [986]); (989, [988]); (991, [990]); (993, [992]); (995, [994]);
    (997, [996]); (999, [998]); (1001, [1000]); (1003, [1002]);
    (1005, [1004]); (1007, [1006]); (1008, [922]); (1009, [929]);
    (1010, [1017]); (1011, [895]); (1013, [917]); (1016, [1015]);
    (1019, [1018]); (1072, [1040]); (1073, [1041]); (1074, [1042]);
    (1075, [1043]); (1076, [1044]); (1077, [1045]); (1078, [1046]);
    (1079, [1047]); (1080, [1048]); (1081, [1049]); (1082, [1050]);
    (1083, [1051]); (1084, [1052]); (1085, [1053]); (1086, [1054]);
    (1087, [1055]); (1088, [1056]); (1089, [1057]); (1090, [1058]);
    (1091, [1059]); (1092, [1060]); (1093, [1061]); (1094, [1062]);
    (1095, [1063]); (1096, [1064]); (1097, [1065]); (1098, [1066]);
    (1099, [1067]); (1100, [1068]); (1101, [1069]); (1102, [1070]);
    (1103, [1071]); (1104, [1024]); (1105, [1025]); (1106, [1026]);
    (1107, [1027]); (1108, [1028]); (1109, [1029]); (1110, [1030]);
    (1111, [1031]); (1112, [1032]); (1113, [1033]); (1114, [1034]);
    (1115, [1035]); (1116, [1036]); (1117, [1037]); (1118, [1038]);
    (1119, [1039]); (1121, [1120]); (1123, [1122]); (1125, [1124]);
    (1127, [1126]); (1129, [1128]); (1131, [1130]); (1133, [1132]);
    (1135, [1134]); (1137, [1136]); (1139, [1138]); (1141, [1140]);
    (1143, [1142]); (1145, [1144]); (1147, [1146]); (1149, [1148]);
    (1151, [1150]); (1153, [1152]); (1163, [1162]); (1165, [1164]);
    (1167, [1166]); (1169, [1168]); (1171, [1170]); (1173, [1172]);
    (1175, [1174]); (1177, [1176]); (1179, [1178]); (1181, [1180]);
    (1183, [1182]); (1185, [1184]); (1187, [1186]); (1189, [1188]);
    (1191, [1190]); (1193, [1192]); (1195, [1194]); (1197, [1196]);
    (1199, [1198]); (1201, [1200]); (1203, [1202]); (1205, [1204]);
    (1207, [1206]); (1209, [1208]); (1211, [1210]); (1213, [1212]);
    (1215, [1214]); (1218, [1217]); (1220, [1219]); (1222, [1221]);
    (1224, [1223]); (1226, [1225]); (1228, [1227]); (1230, [1229]);
    (1231, [1216]); (1233, [1232]); (1235, [1234]); (1237, [1236]);
    (1239, [1238]); (1241, [1240]); (1243, [1242]); (1245, [1244]);
    (1247, [1246]); (1249, [1248]); (1251, [1250]); (1253, [1252]);
    (1255, [1254]); (1257, [1256]); (1259, [1258]); (1261, [1260]);
    (1263, [1262]); (1265, [1264]); (1267, [1266]); (1269, [1268]);
    (1271, [1270]); (1273, [1272]); (1275, [1274]); (1277, [1276]);
    (1279, [1278]); (1281, [1280]); (1283, [1282]); (1285, [1284]);
    (1287, [1286]); (1289, [1288]); (1291, [1290]); (1293, [1292]);
    (1295, [1294]); (1297, [1296]); (1299, [1298]); (1301, [1300]);
    (1303, [1302]); (1305, [1304]); (1307, [1306]); (1309, [1308]);
    (1311, [1310]); (1313, [1312]); (1315, [1314]); (1317, [1316]);
    (1319, [1318]); (1321, [1320]); (1323, [1322]); (1325, [1324]);
    (1327, [1326]); (1377, [1329]); (1378, [1330]); (1379, [1331]);
    (1380, [1332]); (1381, [1333]); (1382, [1334]); (1383, [1335]);
    (1384, [1336]); (1385, [1337]); (1386, [1338]); (1387, [1339]);
    (1388, [1340]); (1389, [1341]); (1390, [1342]); (1391, [1343]);
    (1392, [1344]); (1393, [1345]); (1394, [1346]); (1395, [1347]);
    (1396, [1348]); (1397, [1349]); (1398, [1350]); (1399, [1351]);
    (1400, [1352]); (1401, [1353]); (1402, [1354]); (1403, [1355]);
    (1404, [1356]); (1405, [1357]); (1406, [1358]); (1407, [1359]);
    (1408, [1360]); (1409, [1361]); (1410, [1362]); (1411, [1363]);
    (1412, [1364]); (1413, [1365]); (1414, [1366]); (1415, [1333; 1362]);
    (4304, [7312]); (4305, [7313]); (4306, [7314]); (4307, [7315]);
    (4308, [7316]); (4309, [7317]); (4310, [7318]); (4311, [7319]);
    (4312, [7320]); (4313, [7321]); (4314, [7322]); (4315, [7323]);
    (4316, [7324]); (4317, [7325]); (4318, [7326]); (4319, [7327]);
    (4320, [7328]); (4321, [7329]); (4322, [7330]); (4323, [7331]);
    (4324, [7332]); (4325, [7333]); (4326, [7334]); (4327, [7335]);
    (4328, [7336]); (4329, [7337]); (4330, [7338]); (4331, [7339]);
    (4332, [7340]); (4333, [7341]); (4334, [7342]); (4335, [7343]);
    (4336, [7344]); (4337, [7345]); (4338, [7346]); (4339, [7347]);
    (4340, [7348]); (4341, [7349]); (4342, [7350]); (4343, [7351]);
    (4344, [7352]); (4345, [7353]); (4346, [7354]); (4349, [7357]);
    (4350, [7358]); (4351, [7359]); (5112, [5104]); (5113, [5105]);
    (5114, [5106]); (5115, [5107]); (5116, [5108]); (5117, [5109]);
    (7296, [1042]); (7297, [1044]); (7298, [1054]); (7299, [1057]);
    (7300, [1058]); (7301, [1058]); (7302, [1066]); (7303, [1122]);
    (7304, [42570]); (7545, [42877]); (7549, [11363]); (7566, [42950]);
    (7681, [7680]); (7683, [7682]); (7685, [7684]); (7687, [7686]);
    (7689, [7688]); (7691, [7690]); (7693, [7692]); (7695, [7694]);
    (7697, [7696]); (7699, [7698]); (7701, [7700]); (7703, [7702]);
    (7705, [7704]); (7707, [7706]); (7709, [7708]); (7711, [7710]);
    (7713, [7712]); (7715, [7714]); (7717, [7716]); (7719, [7718]);
    (7721, [7720]); (7723, [7722]); (7725, [7724]); (7727, [7726]);
    (7729, [7728]); (7731, [7730]); (7733, [7732]); (7735, [7734]);
    (7737, [7736]); (7739, [7738]); (7741, [7740]); (7743, [7742]);
    (7745, [7744]); (7747, [7746]); (7749, [7748]); (7751, [7750]);
    (7753, [7752]); (7755, [7754]); (7757, [7756]); (7759, [7758]);
    (7761, [7760]); (7763, [7762]); (7765, [7764]); (7767, [7766]);
    (7769, [7768]); (7771, [7770]); (7773, [7772]); (7775, [7774]);
    (7777, [7776]); (7779, [7778]); (7781, [7780]); (7783, [7782]);
    (7785, [7784]); (7787, [7786]); (7789, [7788]); (7791, [7790]);
    (7793, [7792]); (7795, [7794]); (7797, [7796]); (7799, [7798]);
    (7801, [7800]); (7803, [7802]); (7805, [7804]); (7807, [7806]);
    (7809, [7808]); (7811, [7810]); (7813, [7812]); (7815, [7814]);
    (7817, [7816]); (7819, [7818]); (7821, [7820]); (7823, [7822]);
    (7825, [7824]); (7827, [7826]); (7829, [7828]); (7830, [72; 817]);
    (7831, [84; 776]); (7832, [87; 778]); (7833, [89; 778]);
    (7834, [65; 702]); (7835, [7776]); (7841, [7840]); (7843, [7842]);
    (7845, [7844]); (7847, [7846]); (7849, [7848]); (7851, [7850]);
    (7853, [7852]); (7855, [7854]); (7857, [7856]); (7859, [7858]);
    (7861, [7860]); (7863, [7862]); (7865, [7864]); (7867, [7866]);
    (7869, [7868]); (7871, [7870]); (7873, [7872]); (7875, [7874]);
    (7877, [7876]); (7879, [7878]); (7881, [7880]); (7883, [7882]);
    (7885, [7884]); (7887, [7886]); (7889, [7888]); (7891, [7890]);
    (7893, [7892]); (7895, [7894]); (7897, [7896]); (7899, [7898]);
    (7901, [7900]); (7903, [7902]); (7905, [7904]); (7907, [7906]);
    (7909, [7908]); (7911, [7910]); (7913, [7912]); (7915, [7914]);
    (7917, [7916]); (7919, [7918]); (7921, [7920]); (7923, [7922]);
    (7925, [7924]); (7927, [7926]); (7929, [7928]); (7931, [7930]);
    (7933, [7932]); (7935, [7934]); (7936, [7944]); (7937, [7945]);
    (7938, [7946]); (7939, [7947]); (7940, [7948]); (7941, [7949]);
    (7942, [7950]); (7943, [7951]); (7952, [7960]); (7953, [7961]);
    (7954, [7962]); (7955, [7963]); (7956, [7964]); (7957, [7965]);
    (7968, [7976]); (7969, [7977]); (7970, [7978]); (7971, [7979]);
    (7972, [7980]); (7973, [7981]); (7974, [7982]); (7975, [7983]);
    (7984, [7992]); (7985, [7993]); (7986, [7994]); (7987, [7995]);
    (7988, [7996]); (7989, [7997]); (7990, [7998]); (7991, [7999]);
    (8000, [8008]); (8001, [8009]); (8002, [8010]); (8003, [8011]);
    (8004, [8012]); (8005, [8013]); (8016, [933; 787]); (8017, [8025]);
    (8018, [933; 787; 768]); (8019, [8027]); (8020, [933; 787; 769]);
    (8021, [8029]); (8022, [933; 787; 834]); (8023, [8031]); (8032, [8040]);
    (8033, [8041]); (8034, [8042]); (8035, [8043]); (8036, [8044]);
    (8037, [8045]); (8038, [8046]); (8039, [8047]); (8048, [8122]);
    (8049, [8123]); (8050, [8136]); (8051, [8137]); (8052, [8138]);
    (8053, [8139]); (8054, [8154]); (8055, [8155]); (8056, [8184]);
    (8057, [8185]); (8058, [8170]); (8059, [8171]); (8060, [8186]);
    (8061, [8187]); (8064, [7944; 921]); (8065, [7945; 921]);
    (8066, [7946; 921]); (8067, [7947; 921]); (8068, [7948; 921]);
    (8069, [7949; 921]); (8070, [7950; 921]); (8071, [7951; 921]);
    (8072, [7944; 921]); (8073, [7945; 921]); (8074, [7946; 921]);
    (8075, [7947; 921]); (8076, [7948; 921]); (8077, [7949; 921]);
    (8078, [7950; 921]); (8079, [7951; 921]); (8080, [7976; 921]);
    (8081, [7977; 921]); (8082, [7978; 921]); (8083, [7979; 921]);
    (8084, [7980; 921]); (8085, [7981; 921]); (8086, [7982; 921]);
    (8087, [7983; 921]); (8088, [7976; 921]); (8089, [7977; 921]);
    (8090, [7978; 921]); (8091, [7979; 921]); (8092, [7980; 921]);
    (8093, [7981; 921]); (8094, [7982; 921]); (8095, [7983; 921]);
    (8096, [8040; 921]); (8097, [8041; 921]); (8098, [8042; 921]);
    (8099, [8043; 921]); (8100, [8044; 921]); (8101, [8045; 921]);
    (8102, [8046; 921]); (8103, [8047; 921]); (8104, [8040; 921]);
    (8105, [8041; 921]); (8106, [8042; 921]); (8107, [8043; 921]);
    (8108, [8044; 921]); (8109, [8045; 921]); (8110, [8046; 921]);
    (8111, [8047; 921]); (8112, [8120]); (8113, [8121]); (8114, [8122; 921]);
    (8115, [913; 921]); (8116, [902; 921]); (8118, [913; 834]);
    (8119, [913; 834; 921]); (8124, [913; 921]); (8126, [921]);
    (8130, [8138; 921]); (8131, [919; 921]); (8132, [905; 921]);
    (8134, [919; 834]); (8135, [919; 834; 921]); (8140, [919; 921]);
    (8144, [8152]); (8145, [8153]); (8146, [921; 776; 768]);
    (8147, [921; 776; 769]); (8150, [921; 834]); (8151, [921; 776; 834]);
    (8160, [8168]); (8161, [8169]); (8162, [933; 776; 768]);
    (8163, [933; 776; 769]); (8164, [929; 787]); (8165, [8172]);
    (8166, [933; 834]); (8167, [933; 776; 834]); (8178, [8186; 921]);
    (8179, [937; 921]); (8180, [911; 921]); (8182, [937; 834]);
    (8183, [937; 834; 921]); (8188, [937; 921]); (8526, [8498]);
    (8560, [8544]); (8561, [8545]); (8562, [8546]); (8563, [8547]);
    (8564, [8548]); (8565, [8549]); (8566, [8550]); (8567, [8551]);
    (8568, [8552]); (8569, [8553]); (8570, [8554]); (8571, [8555]);
    (8572, [8556]); (8573, [8557]); (8574, [8558]); (8575, [8559]);
    (8580, [8579]); (9424, [9398]); (9425, [9399]); (9426, [9400]);
    (9427, [9401]); (9428, [9402]); (9429, [9403]); (9430, [9404]);
    (9431, [9405]); (9432, [9406]); (9433, [9407]); (9434, [9408]);
    (9435, [9409]); (9436, [9410]); (9437, [9411]); (9438, [9412]);
    (9439, [9413]); (9440, [9414]); (9441, [9415]); (9442, [9416]);
    (9443, [9417]); (9444, [9418]); (9445, [9419]); (9446, [9420]);
    (9447, [9421]); (9448, [9422]); (9449, [9423]); (11312, [11264]);
    (11313, [11265]); (11314, [11266]); (11315, [11267]); (11316, [11268]);
    (11317, [11269]); (11318, [11270]); (11319, [11271]); (11320, [11272]);
    (11321, [11273]); (11322, [11274]); (11323, [11275]); (11324, [11276]);
    (11325, [11277]); (11326, [11278]); (11327, [11279]); (11328, [11280]);
    (11329, [11281]); (11330, [11282]); (11331, [11283]); (11332, [11284]);
    (11333, [11285]); (11334, [11286]); (11335, [11287]); (11336, [11288]);
    (11337, [11289]); (11338, [11290]); (11339, [11291]); (11340, [11292]);
    (11341, [11293]); (11342, [11294]); (11343, [11295]); (11344, [11296]);
    (11345, [11297]); (11346, [11298]); (11347, [11299]); (11348, [11300]);
    (11349, [11301]); (11350, [11302]); (11351, [11303]); (11352, [11304]);
    (11353, [11305]); (11354, [11306]); (11355, [11307]); (11356, [11308]);
    (11357, [11309]); (11358, [11310]); (11359, [11311]); (11361, [11360]);
    (11365, [570]); (11366, [574]); (11368, [11367]); (11370, [11369]);
    (11372, [11371]); (11379, [11378]); (11382, [11381]); (11393, [11392]);
    (11395, [11394]); (11397, [11396]); (11399, [11398]); (11401, [11400]);
    (11403, [11402]); (11405, [11404]); (11407, [11406]); (11409, [11408]);
    (11411, [11410]); (11413, [11412]); (11415, [11414]); (11417, [11416]);
    (11419, [11418]); (11421, [11420]); (11423, [11422]); (11425, [11424]);
    (11427, [11426]); (11429, [11428]); (11431, [11430]); (11433, [11432]);
    (11435, [11434]); (11437, [11436]); (11439, [11438]); (11441, [11440]);
    (11443, [11442]); (11445, [11444]); (11447, [11446]); (11449, [11448]);
    (11451, [11450]); (11453, [11452]); (11455, [11454]); (11457, [11456]);
    (11459, [11458]); (11461, [11460]); (11463, [11462]); (11465, [11464]);
    (11467, [11466]); (11469, [11468]); (11471, [11470]); (11473, [11472]);
    (11475, [11474]); (11477, [11476]); (11479, [11478]); (11481, [11480]);
    (11483, [11482]); (11485, [11484]); (11487, [11486]); (11489, [11488]);
    (11491, [11490]); (11500, [11499]); (11502, [11501]); (11507, [11506]);
    (11520, [4256]); (11521, [4257]); (11522, [4258]); (11523, [4259]);
    (11524, [4260]); (11525, [4261]); (11526, [4262]); (11527, [4263]);
    (11528, [4264]); (11529, [4265]); (11530, [4266]); (11531, [4267]);
    (11532, [4268]); (11533, [4269]); (11534, [4270]); (11535, [4271]);
    (11536, [4272]); (11537, [4273]); (11538, [4274]); (11539, [4275]);
    (11540, [4276]); (11541, [4277]); (11542, [4278]); (11543, [4279]);
    (11544, [4280]); (11545, [4281]); (11546, [4282]); (11547, [4283]);
    (11548, [4284]); (11549, [4285]); (11550, [4286]); (11551, [4287]);
    (11552, [4288]); (11553, [4289]); (11554, [4290]); (11555, [4291]);
    (11556, [4292]); (11557, [4293]); (11559, [4295]); (11565, [4301]);
    (42561, [42560]); (42563, [42562]); (42565, [42564]); (42567, [42566]);
    (42569, [42568]); (42571, [42570]); (42573, [42572]); (42575, [42574]);
    (42577, [42576]); (42579, [42578]); (42581, [42580]); (42583, [42582]);
    (42585, [42584]); (42587, [42586]); (42589, [42588]); (42591, [42590]);
    (42593, [42592]); (42595, [42594]); (42597, [42596]); (42599, [42598]);
    (42601, [42600]); (42603, [42602]); (42605, [42604]); (42625, [42624]);
    (42627, [42626]); (42629, [42628]); (42631, [42630]); (42633, [42632]);
    (42635, [42634]); (42637, [42636]); (42639, [42638]); (42641, [42640]);
    (42643, [42642]); (42645, [42644]); (42647, [42646]); (42649, [42648]);
    (42651, [42650]); (42787, [42786]); (42789, [42788]); (42791, [42790]);
    (42793, [42792]); (42795, [42794]); (42797, [42796]); (42799, [42798]);
    (42803, [42802]); (42805, [42804]); (42807, [42806]); (42809, [42808]);
    (42811, [42810]); (42813, [42812]); (42815, [42814]); (42817, [42816]);
    (42819, [42818]); (42821, [42820]); (42823, [42822]); (42825, [42824]);
    (42827, [42826]); (42829, [42828]); (42831, [42830]); (42833, [42832]);
    (42835, [42834]); (42837, [42836]); (42839, [42838]); (42841, [42840]);
    (42843, [42842]); (42845, [42844]); (42847, [42846]); (42849, [42848]);
    (42851, [42850]); (42853, [42852]); (42855, [42854]); (42857, [42856]);
    (42859, [42858]); (42861, [42860]); (42863, [42862]); (42874, [42873]);
    (42876, [42875]); (42879, [42878]); (42881, [42880]); (42883, [42882]);
    (42885, [42884]); (42887, [42886]); (42892, [42891]); (42897, [42896]);
    (42899, [42898]); (42900, [42948]); (42903, [42902]); (42905, [42904]);
    (42907, [42906]); (42909, [42908]); (42911, [42910]); (42913, [42912]);
    (42915, [42914]); (42917, [42916]); (42919, [42918]); (42921, [42920]);
    (42933, [42932]); (42935, [42934]); (42937, [42936]); (42939, [42938]);
    (42941, [42940]); (42943, [42942]); (42945, [42944]); (42947, [42946]);
    (42952, [42951]); (42954, [42953]); (42961, [42960]); (42967, [42966]);
    (42969, [42968]); (42998, [42997]); (43859, [42931]); (43888, [5024]);
    (43889, [5025]); (43890, [5026]); (43891, [5027]); (43892, [5028]);
    (43893, [5029]); (43894, [5030]); (43895, [5031]); (43896, [5032]);
    (43897, [5033]); (43898, [5034]); (43899, [5035]); (43900, [5036]);
    (43901, [5037]); (43902, [5038]); (43903, [5039]); (43904, [5040]);
    (43905, [5041]); (43906, [5042]); (43907, [5043]); (43908, [5044]);
    (43909, [5045]); (43910, [5046]); (43911, [5047]); (43912, [5048]);
    (43913, [5049]); (43914, [5050]); (43915, [5051]); (43916, [5052]);
    (43917, [5053]); (43918, [5054]); (43919, [5055]); (43920, [5056]);
    (43921, [5057]); (43922, [5058]); (43923, [5059]); (43924, [5060]);
    (43925, [5061]); (43926, [5062]); (43927, [5063]); (43928, [5064]);
    (43929, [5065]); (43930, [5066]); (43931, [5067]); (43932, [5068]);
    (43933, [5069]); (43934, [5070]); (43935, [5071]); (43936, [5072]);
    (43937, [5073]); (43938, [5074]); (43939, [5075]); (43940, [5076]);
    (43941, [5077]); (43942, [5078]); (43943, [5079]); (43944, [5080]);
    (43945, [5081]); (43946, [5082]); (43947, [5083]); (43948, [5084]);
    (43949, [5085]); (43950, [5086]); (43951, [5087]); (43952, [5088]);
    (43953, [5089]); (43954, [5090]); (43955, [5091]); (43956, [5092]);
    (43957, [5093]); (43958, [5094]); (43959, [5095]); (43960, [5096]);
    (43961, [5097]); (43962, [5098]); (43963, [5099]); (43964, [5100]);
    (43965, [5101]); (43966, [5102]); (43967, [5103]); (64256, [70; 70]);
    (64257, [70; 73]); (64258, [70; 76]); (64259, [70; 70; 73]);
    (64260, [70; 70; 76]); (64261, [83; 84]); (64262, [83; 84]);
    (64275, [1348; 1350]); (64276, [1348; 1333]); (64277, [1348; 1339]);
    (64278, [1358; 1350]); (64279, [1348; 1341]); (65345, [65313]);
    (65346, [65314]); (65347, [65315]); (65348, [65316]); (65349, [65317]);
    (65350, [65318]); (65351, [65319]); (65352, [65320]); (65353, [65321]);
    (65354, [65322]); (65355, [65323]); (65356, [65324]); (65357, [65325]);
    (65358, [65326]); (65359, [65327]); (65360, [65328]); (65361, [65329]);
    (65362, [65330]); (65363, [65331]); (65364, [65332]); (65365, [65333]);
    (65366, [65334]); (65367, [65335]); (65368, [65336]); (65369, [65337]);
    (65370, [65338]); (66600, [66560]); (66601, [66561]); (66602, [66562]);
    (66603, [66563]); (66604, [66564]); (66605, [66565]); (66606, [66566]);
    (66607, [66567]); (66608, [66568]); (66609, [66569]); (66610, [66570]);
    (66611, [66571]); (66612, [66572]); (66613, [66573]); (66614, [66574]);
    (66615, [66575]); (66616, [66576]); (66617, [66577]); (66618, [66578]);
    (66619, [66579]); (66620, [66580]); (66621, [66581]); (66622, [66582]);
    (66623, [66583]); (66624, [66584]); (66625, [66585]); (66626, [66586]);
    (66627, [66587]); (66628, [66588]); (66629, [66589]); (66630, [66590]);
    (66631, [66591]); (66632, [66592]); (66633, [66593]); (66634, [66594]);
    (66635, [66595]); (66636, [66596]); (66637, [66597]); (66638, [66598]);
    (66639, [66599]); (66776, [66736]); (66777, [66737]); (66778, [66738]);
    (66779, [66739]); (66780, [66740]); (66781, [66741]); (66782, [66742]);
    (66783, [66743]); (66784, [66744]); (66785, [66745]); (66786, [66746]);
    (66787, [66747]); (66788, [66748]); (66789, [66749]); (66790, [66750]);
    (66791, [66751]); (66792, [66752]); (66793, [66753]); (66794, [66754]);
    (66795, [66755]); (66796, [66756]); (66797, [66757]); (66798, [66758]);
    (66799, [66759]); (66800, [66760]); (66801, [66761]); (66802, [66762]);
    (66803, [66763]); (66804, [66764]); (66805, [66765]); (66806, [66766]);
    (66807, [66767]); (66808, [66768]); (66809, [66769]); (66810, [66770]);
    (66811, [66771]); (66967, [66928]); (66968, [66929]); (66969, [66930]);
    (66970, [66931]); (66971, [66932]); (66972, [66933]); (66973, [66934]);
    (66974, [66935]); (66975, [66936]); (66976, [66937]); (66977, [66938]);
    (66979, [66940]); (66980, [66941]); (66981, [66942]); (66982, [66943]);
    (66983, [66944]); (66984, [66945]); (66985, [66946]); (66986, [66947]);
    (66987, [66948]); (66988, [66949]); (66989, [66950]); (66990, [66951]);
    (66991, [66952]); (66992, [66953]); (66993, [66954]); (66995, [66956]);
    (66996, [66957]); (66997, [66958]); (66998, [66959]); (66999, [66960]);
    (67000, [66961]); (67001, [66962]); (67003, [66964]); (67004, [66965]);
    (68800, [68736]); (68801, [68737]); (68802, [68738]); (68803, [68739]);
    (68804, [68740]); (68805, [68741]); (68806, [68742]); (68807, [68743]);
    (68808, [68744]); (68809, [68745]); (68810, [68746]); (68811, [68747]);
    (68812, [68748]); (68813, [68749]); (68814, [68750]); (68815, [68751]);
    (68816, [68752]); (68817, [68753]); (68818, [68754]); (68819, [68755]);
    (68820, [68756]); (68821, [68757]); (68822, [68758]); (68823, [68759]);
    (68824, [68760]); (68825, [68761]); (68826, [68762]); (68827, [68763]);
    (68828, [68764]); (68829, [68765]); (68830, [68766]); (68831, [68767]);
    (68832, [68768]); (68833, [68769]); (68834, [68770]); (68835, [68771]);
    (68836, [68772]); (68837, [68773]); (68838, [68774]); (68839, [68775]);
    (68840, [68776]); (68841, [68777]); (68842, [68778]); (68843, [68779]);
    (68844, [68780]); (68845, [68781]); (68846, [68782]); (68847, [68783]);
    (68848, [68784]); (68849, [68785]); (68850, [68786]); (71872, [71840]);
    (71873, [71841]); (71874, [71842]); (71875, [71843]); (71876, [71844]);
    (71877, [71845]); (71878, [71846]); (71879, [71847]); (71880, [71848]);
    (71881, [71849]); (71882, [71850]); (71883, [71851]); (71884, [71852]);
    (71885, [71853]); (71886, [71854]); (71887, [71855]); (71888, [71856]);
    (71889, [71857]); (71890, [71858]); (71891, [71859]); (71892, [71860]);
    (71893, [71861]); (71894, [71862]); (71895, [71863]); (71896, [71864]);
    (71897, [71865]); (71898, [71866]); (71899, [71867]); (71900, [71868]);
    (71901, [71869]); (71902, [71870]); (71903, [71871]); (93792, [93760]);
    (93793, [93761]); (93794, [93762]); (93795, [93763]); (93796, [93764]);
    (93797, [93765]); (93798, [93766]); (93799, [93767]); (93800, [93768]);
    (93801, [93769]); (93802, [93770]); (93803, [93771]); (93804, [93772]);
    (93805, [93773]); (93806, [93774]); (93807, [93775]); (93808, [93776]);
    (93809, [93777]); (93810, [93778]); (93811, [93779]); (93812, [93780]);
    (93813, [93781]); (93814, [93782]); (93815, [93783]); (93816, [93784]);
    (93817, [93785]); (93818, [93786]); (93819, [93787]); (93820, [93788]);
    (93821, [93789]); (93822, [93790]); (93823, [93791]); (125218, [125184]);
    (125219, [125185]); (125220, [125186]); (125221, [125187]);
    (125222, [125188]); (125223, [125189]); (125224, [125190]);
    (125225, [125191]); (125226, [125192]); (125227, [125193]);
    (125228, [125194]); (125229, [125195]); (125230, [125196]);
    (125231, [125197]); (125232, [125198]); (125233, [125199]);
    (125234, [125200]); (125235, [125201]); (125236, [125202]);
    (125237, [125203]); (125238, [125204]); (125239, [125205]);
    (125240, [125206]); (125241, [125207]); (125242, [125208]);
    (125243, [125209]); (125244, [125210]); (125245, [125211]);
    (125246, [125212]); (125247, [125213]); (125248, [125214]);
    (125249, [125215]); (125250, [125216]); (125251, [125217])
  ]%N.

(** The upper-case form of one code point, by a search in an ascending
    table. *)
Fixpoint to_upper_full (c : N) (table : list (N * list N)) : list N :=
  match table with
  | [] => [c]
  | (k, v) :: table' =>
      match (c ?= k)%N with
      | Eq => v
      | Lt => [c]
      | Gt => to_upper_full c table'
      end
  end.

(** One character of [str.upper()]. *)
Definition upper_char (c : N) : list N := to_upper_full c unicode_upper.

(** [s.upper()]: the upper-case forms of the characters, in sequence. *)
Definition upper (s : ustring) : ustring := s ≫= upper_char.

(** [needle] is at the start of [hay]. *)
Fixpoint starts_with (needle hay : ustring) : bool :=
  match needle, hay with
  | [], _ => true
  | _ :: _, [] => false
  | c :: needle', d :: hay' => (c =? d)%N && starts_with needle' hay'
  end.

(** [needle in hay] on strings: [needle] occurs in [hay] as a contiguous
    substring. *)
Fixpoint contains (needle hay : ustring) : bool :=
  starts_with needle hay ||
  match hay with
  | [] => false
  | _ :: hay' => contains needle hay'
  end.

(** [sep.join(lines)]. *)
Fixpoint join (sep : string) (lines : list string) : string :=
  match lines with
  | [] => ""
  | [l] => l
  | l :: rest => l +:+ sep +:+ join sep rest
  end.

(** Truth value of a Python [int], as tested by [if] and [not]. *)
Definition truthy (z : Z) : bool := negb (z =? 0)%Z.

(** ** The type normalizer *)

(** The dictionary literal [type_mapping]. *)
Definition type_mapping : gmap ustring string :=
  list_to_map
    [ ("INTEGER" : ustring, "Integer"); ("TEXT" : ustring, "Text");
      ("REAL" : ustring, "Float"); ("FLOAT" : ustring, "Float");
      ("BOOLEAN" : ustring, "Bool"); ("BOOL" : ustring, "Bool");
      ("DATE" : ustring, "Date"); ("TIME" : ustring, "Time");
      ("DATETIME" : ustring, "Timestamp");
      ("TIMESTAMP" : ustring, "Timestamp"); ("BLOB" : ustring, "Binary") ].

(** The body of [sql_type_to_diesel_type] up to the nullability test: the
    value of the local [diesel_type]. *)
Definition diesel_type (sql_type : ustring) : string :=
  let sql_type := upper sql_type in
  if contains "INT" sql_type then "Integer"
  else if contains "CHAR" sql_type || contains "TEXT" sql_type then "Text"
  else if contains "REAL" sql_type || contains "FLOAT" sql_type
          || contains "DOUBLE" sql_type then "Float"
  else if contains "DATE" sql_type then
    if contains "TIME" sql_type then "Timestamp" else "Date"
  else default "Text" (type_mapping !! sql_type).

Definition sql_type_to_diesel_type (sql_type : ustring) (is_nullable : bool)
  : string :=
  let diesel_type := diesel_type sql_type in
  if is_nullable then "Nullable<" +:+ diesel_type +:+ ">"
  else diesel_type.

(** ** The catalog read by [generate_schema]

    The rows the three queries return.  The flags [not_null] and [is_pk] are
    the integers SQLite reports ([is_pk] is the 1-based rank of the column in
    the primary key, 0 when it is not part of it). *)

(** A row of [sqlite_master], with the two columns the query looks at.
    [m_name] is the name as Python receives it; [m_stored] holds the bytes of
    the name in the text encoding of the database (UTF-8, UTF-16le or
    UTF-16be), which is what [ORDER BY name] compares. *)
Record MasterRow := {
  m_type : string;
  m_name : string;
  m_stored : string
}.

(** A row of [PRAGMA table_info], unpacked by the script as
    [col_id, col_name, col_type, not_null, default_value, is_pk]. *)
Record ColumnRow := {
  col_id : Z;
  col_name : string;
  col_type : ustring;
  not_null : Z;
  default_value : option string;
  is_pk : Z
}.

(** A row of [PRAGMA foreign_key_list], unpacked as [fk_id, seq,
    referenced_table, from_col, to_col, on_update, on_delete, match]. *)
Record ForeignKeyRow := {
  fk_id : Z;
  seq : Z;
  referenced_table : string;
  from_col : string;
  to_col : option string;
  on_update : string;
  on_delete : string;
  fk_match : string
}.

(** The rows of a database whose statements are all answered. *)
Record Database := {
  sqlite_master : list MasterRow;
  table_info : string -> list ColumnRow;
  foreign_key_list : string -> list ForeignKeyRow
}.

(** [WHERE type='table' AND name != 'sqlite_sequence']. *)
Definition is_user_table (r : MasterRow) : Prop :=
  m_type r = "table" /\ m_name r <> "sqlite_sequence".

#[global] Instance is_user_table_dec r : Decision (is_user_table r).
Proof. unfold is_user_table. apply _. Defined.

(** The order of [ORDER BY name] on the selected rows, each taken as the pair
    of its stored bytes and its name: SQLite's BINARY collation compares the
    stored bytes, byte by byte.  Two rows of a database that store the same
    bytes have the same name; comparing the names of such rows makes the
    relation an order on all pairs. *)
Definition stored_le (r1 r2 : string * string) : Prop :=
  String.le r1.1 r2.1 /\ (r1.1 = r2.1 -> String.le r1.2 r2.2).

#[global] Instance stored_le_dec : RelDecision stored_le.
Proof. intros r1 r2. unfold stored_le. apply _. Defined.

(** The rows of [SELECT name FROM sqlite_master WHERE ... ORDER BY name],
    with the stored bytes next to each name. *)
Definition select_rows (master : list MasterRow) : list (string * string) :=
  merge_sort stored_le
    ((fun r => (m_stored r, m_name r)) <$> filter is_user_table master).

(** What [cursor.fetchall()] hands to Python: the names, in that order. *)
Definition select_names (master : list MasterRow) : list string :=
  snd <$> select_rows master.

Definition tables (db : Database) : list string :=
  select_names (sqlite_master db).

(** ** The schema emitter *)

Definition nl : string := String "010" "".

Definition header : list string :=
  ["// @generated automatically by generate_schema.py"; ""].

(** The search loop under [# Find primary key]: the name of the first column
    whose [pk] entry is true, [None] when the loop ends without [break]. *)
Fixpoint find_primary_key (columns : list ColumnRow) : option string :=
  match columns with
  | [] => None
  | col :: rest =>
      if truthy (is_pk col) then Some (col_name col)
      else find_primary_key rest
  end.

(** The search followed by [if not primary_key: primary_key = 'id'].  In
    Python [not] holds of [None] and of the empty string. *)
Definition primary_key (columns : list ColumnRow) : string :=
  match find_primary_key columns with
  | None => "id"
  | Some name => if decide (name = "") then "id" else name
  end.

Definition table_line (table_name primary_key : string) : string :=
  "    " +:+ table_name +:+ " (" +:+ primary_key +:+ ") {".

(** The body of the loop over [columns]. *)
Definition column_line (col : ColumnRow) : string :=
  let is_nullable := negb (truthy (not_null col)) && negb (truthy (is_pk col)) in
  let diesel_type := sql_type_to_diesel_type (col_type col) is_nullable in
  "        " +:+ col_name col +:+ " -> " +:+ diesel_type +:+ ",".

Definition joinable_line (table_name : string) (fk : ForeignKeyRow) : string :=
  "diesel::joinable!(" +:+ table_name +:+ " -> " +:+ referenced_table fk
    +:+ " (" +:+ from_col fk +:+ "));".

(** The two lists the main loop appends to. *)
Record EmitState := {
  schema_lines : list string;
  joinable_lines : list string
}.

(** One iteration of [for (table_name,) in tables], once the two [PRAGMA]
    statements have returned [columns] and [foreign_keys]. *)
Definition emit_rows (table_name : string) (columns : list ColumnRow)
    (foreign_keys : list ForeignKeyRow) (st : EmitState) : EmitState :=
  let primary_key := primary_key columns in
  let lines := schema_lines st ++ ["diesel::table! {"] in
  let lines := lines ++ [table_line table_name primary_key] in
  let lines := fold_left (fun acc col => acc ++ [column_line col]) columns lines in
  let lines := ((lines ++ ["    }"]) ++ ["}"]) ++ [""] in
  let joins :=
    fold_left
      (fun acc fk =>
         if decide (referenced_table fk <> table_name)
         then acc ++ [joinable_line table_name fk] else acc)
      foreign_keys (joinable_lines st) in
  {| schema_lines := lines; joinable_lines := joins |}.

Definition emit_table (db : Database) (st : EmitState) (table_name : string)
  : EmitState :=
  let columns := table_info db table_name in
  let foreign_keys := foreign_key_list db table_name in
  emit_rows table_name columns foreign_keys st.

(** The statements after the main loop: the list [schema_lines] when
    [generate_schema] reaches its [return]. *)
Definition finish_lines (tables : list string) (st : EmitState)
  : list string :=
  let lines :=
    match joinable_lines st with
    | [] => schema_lines st
    | _ :: _ => (schema_lines st ++ joinable_lines st) ++ [""]
    end in
  let table_names := tables in
  let lines := lines ++ ["diesel::allow_tables_to_appear_in_same_query!("] in
  let lines :=
    fold_left (fun acc table_name => acc ++ ["    " +:+ table_name +:+ ","])
      table_names lines in
  lines ++ [");"].

Definition generate_schema_lines (db : Database) : list string :=
  let tables := tables db in
  let st :=
    fold_left (emit_table db) tables
      {| schema_lines := header; joinable_lines := [] |} in
  finish_lines tables st.

Definition generate_schema (db : Database) : string :=
  join nl (generate_schema_lines db).

(** ** The statements that can fail *)

(** What [cursor.execute] and [cursor.fetchall] give for one of the two
    [PRAGMA] statements: the rows, or [sqlite3.OperationalError] when SQLite
    does not accept the text of the statement.  The script puts the table
    name into that text as it is, without quotes. *)
Inductive Answer (A : Type) : Type :=
  | Rows (rows : list A)
  | OperationalError (message : string).

Arguments Rows {A} rows.
Arguments OperationalError {A} message.

(** A database as the cursor sees it: the rows of [sqlite_master] and, for
    the name put into each [PRAGMA], the answer. *)
Record Engine := {
  engine_master : list MasterRow;
  execute_table_info : string -> Answer ColumnRow;
  execute_foreign_key_list : string -> Answer ForeignKeyRow
}.

(** How a call of [generate_schema] ends. *)
Inductive Completion :=
  | Returned (text : string)
  | Propagated (message : string).

(** The main loop with its two statements per table: an exception leaves
    the loop and the function. *)
Fixpoint emit_tables_run (e : Engine) (tables : list string) (st : EmitState)
  : EmitState + string :=
  match tables with
  | [] => inl st
  | table_name :: rest =>
      match execute_table_info e table_name with
      | OperationalError message => inr message
      | Rows columns =>
          match execute_foreign_key_list e table_name with
          | OperationalError message => inr message
          | Rows foreign_keys =>
              emit_tables_run e rest
                (emit_rows table_name columns foreign_keys st)
          end
      end
  end.

(** [generate_schema] on a database whose statements may fail. *)
Definition generate_schema_run (e : Engine) : Completion :=
  let tables := select_names (engine_master e) in
  match
    emit_tables_run e tables {| schema_lines := header; joinable_lines := [] |}
  with
  | inr message => Propagated message
  | inl st => Returned (join nl (finish_lines tables st))
  end.

Definition rows_of {A : Type} (a : Answer A) : list A :=
  match a with
  | Rows rows => rows
  | OperationalError _ => []
  end.

(** The rows the statements of an engine return. *)
Definition fetched (e : Engine) : Database :=
  {| sqlite_master := engine_master e;
     table_info := fun t => rows_of (execute_table_info e t);
     foreign_key_list := fun t => rows_of (execute_foreign_key_list e t) |}.

(** ** The entry point *)

(** What [sqlite3.connect] and the queries do for a path: they hand the
    catalog over, or raise; the traceback is what the interpreter then prints
    for the uncaught exception. *)
Inductive Connection :=
  | Opened (db : Database)
  | Raised (traceback : string).

(** The connection to an engine. *)
Definition connection (e : Engine) : Connection :=
  match generate_schema_run e with
  | Returned _ => Opened (fetched e)
  | Propagated message => Raised message
  end.

(** What a run leaves behind. *)
Record Outcome := {
  stdout : string;
  stderr : string;
  exit_status : Z
}.

Definition usage : string :=
  "Usage: python generate_schema.py <database_path>".

(** The [__main__] block; [argv] is [sys.argv], the script name included.
    [print] writes to standard output and ends the text with a newline;
    [sys.exit(1)] and an uncaught exception end the run with status 1. *)
Definition main (connect : string -> Connection) (argv : list string)
  : Outcome :=
  match argv with
  | [_; db_path] =>
      match connect db_path with
      | Opened db =>
          {| stdout := generate_schema db +:+ nl; stderr := "";
             exit_status := 0 |}
      | Raised traceback =>
          {| stdout := ""; stderr := traceback; exit_status := 1 |}
      end
  | _ => {| stdout := usage +:+ nl; stderr := ""; exit_status := 1 |}
  end.

(** ** The specification's vocabulary *)

(** The closed set of abstract column types. *)
Inductive AbstractColumnType :=
  | Integer | Text | Float | Bool | Date | Time | Timestamp | Binary.

Definition render (t : AbstractColumnType) : string :=
  match t with
  | Integer => "Integer"
  | Text => "Text"
  | Float => "Float"
  | Bool => "Bool"
  | Date => "Date"
  | Time => "Time"
  | Timestamp => "Timestamp"
  | Binary => "Binary"
  end.

Definition render_nullable (t : AbstractColumnType) (nullable : bool)
  : string :=
  if nullable then "Nullable<" +:+ render t +:+ ">" else render t.

(** The fixed table of rule 5, as the specification lists it. *)
Definition spec_table : gmap ustring AbstractColumnType :=
  list_to_map
    [ ("TEXT" : ustring, Text); ("REAL" : ustring, Float);
      ("FLOAT" : ustring, Float); ("BOOLEAN" : ustring, Bool);
      ("BOOL" : ustring, Bool); ("DATE" : ustring, Date);
      ("TIME" : ustring, Time); ("DATETIME" : ustring, Timestamp);
      ("TIMESTAMP" : ustring, Timestamp); ("BLOB" : ustring, Binary) ].

(** The abstract type behind the text that [diesel_type] computes. *)
Definition classify (s : ustring) : AbstractColumnType :=
  let u := upper s in
  if contains "INT" u then Integer
  else if contains "CHAR" u || contains "TEXT" u then Text
  else if contains "REAL" u || contains "FLOAT" u || contains "DOUBLE" u
  then Float
  else if contains "DATE" u then
    if contains "TIME" u then Timestamp else Date
  else default Text (spec_table !! u).

(** *** The rule list of the specification

    Letter case is set aside by comparing upper-case forms.  For the
    characters of ASCII the form is given here by its rule: a letter a-z is
    the letter 32 places before it, every other character is itself; for the
    characters beyond ASCII it is the one of Unicode's table. *)
Definition fold_case_char (c : N) : list N :=
  if ((97 <=? c) && (c <=? 122))%N then [(c - 32)%N]
  else if (c <? 128)%N then [c]
  else to_upper_full c unicode_upper.

Definition fold_case (s : ustring) : ustring := s ≫= fold_case_char.

(** [needle] occurs in [s] as a contiguous substring. *)
Definition occurs (needle s : ustring) : Prop :=
  exists before after, s = before ++ needle ++ after.

(** Case-insensitive substring match. *)
Definition occurs_ci (needle s : ustring) : Prop :=
  occurs (fold_case needle) (fold_case s).

(** A rule: a test on the raw type and the type it gives. *)
Definition rule : Type :=
  (ustring -> Prop) * (ustring -> AbstractColumnType -> Prop).

Definition gives (t : AbstractColumnType) : ustring -> AbstractColumnType -> Prop :=
  fun _ t' => t' = t.

(** Rules 1 to 4, in their priority order. *)
Definition spec_rules : list rule :=
  [ (occurs_ci "INT", gives Integer);
    (fun s => occurs_ci "CHAR" s \/ occurs_ci "TEXT" s, gives Text);
    (fun s => occurs_ci "REAL" s \/ occurs_ci "FLOAT" s
              \/ occurs_ci "DOUBLE" s, gives Float);
    (occurs_ci "DATE",
     fun s t => (occurs_ci "TIME" s /\ t = Timestamp)
                \/ (~ occurs_ci "TIME" s /\ t = Date)) ].

(** The first rule whose test holds decides; when none does, [otherwise]
    decides. *)
Fixpoint first_match (rules : list rule)
    (otherwise : ustring -> AbstractColumnType -> Prop)
    (s : ustring) (t : AbstractColumnType) : Prop :=
  match rules with
  | [] => otherwise s t
  | (test, outcome) :: rules' =>
      (test s /\ outcome s t)
      \/ (~ test s /\ first_match rules' otherwise s t)
  end.

(** Rule 5: the lookup of the whole name, letter case aside, in the table,
    with Text for a name that is not a key. *)
Definition spec_lookup (s : ustring) (t : AbstractColumnType) : Prop :=
  t = default Text (spec_table !! fold_case s).

(** [t] is the abstract type of the raw type [s]. *)
Definition classified (s : ustring) (t : AbstractColumnType) : Prop :=
  first_match spec_rules spec_lookup s t.

(** [normalize] of the specification has the value [text]. *)
Definition normalize (raw_type : ustring) (nullable : bool) (text : string)
  : Prop :=
  exists t, classified raw_type t /\ text = render_nullable t nullable.

(** ** The document layout of the specification *)

(** The declaration block of one table. *)
Definition table_block (db : Database) (t : string) : list string :=
  ["diesel::table! {";
   "    " +:+ t +:+ " (" +:+ primary_key (table_info db t) +:+ ") {"]
    ++ (column_line <$> table_info db t) ++ ["    }"; "}"; ""].

(** The statements one foreign key gives rise to. *)
Definition statements_for (t : string) (fk : ForeignKeyRow) : list string :=
  if decide (referenced_table fk = t) then []
  else ["diesel::joinable!(" +:+ t +:+ " -> " +:+ referenced_table fk
          +:+ " (" +:+ from_col fk +:+ "));"].

(** All relationship statements: tables outside, foreign keys inside. *)
Definition relationship_statements (db : Database) : list string :=
  tables db ≫= (fun t => foreign_key_list db t ≫= statements_for t).

(** The blank line that follows the relationship statements, if any. *)
Definition separator (stmts : list string) : list string :=
  match stmts with [] => [] | _ :: _ => [""] end.

(** The closing statement that lists the tables. *)
Definition collection_statement (names : list string) : list string :=
  ["diesel::allow_tables_to_appear_in_same_query!("]
    ++ ((fun t => "    " +:+ t +:+ ",") <$> names) ++ [");"].

(** The index, in the document's list of lines, of the first line of the
    block of the [i]-th table. *)
Definition block_start (db : Database) (i : nat) : nat :=
  length header + length (take i (tables db) ≫= table_block db).

(** ** A sample catalog

    The two tables of the specification's end-to-end scenario,
    [users(id INTEGER PK, name TEXT NOT NULL, age INTEGER)] and
    [posts(id INTEGER PK, user_id INTEGER REFERENCES users(id))], with an
    index and the engine's own [sqlite_sequence] table next to them. *)

(** A row of [sqlite_master] of a UTF-8 database: the stored bytes are the
    bytes of the name. *)
Definition master_row (type name : string) : MasterRow :=
  {| m_type := type; m_name := name; m_stored := name |}.

Definition column (i : Z) (name type : string) (nn pk : Z) : ColumnRow :=
  {| col_id := i; col_name := name; col_type := type; not_null := nn;
     default_value := None; is_pk := pk |}.

Definition foreign_key (i : Z) (ref from : string) (to : option string)
  : ForeignKeyRow :=
  {| fk_id := i; seq := 0; referenced_table := ref; from_col := from;
     to_col := to; on_update := "NO ACTION"; on_delete := "NO ACTION";
     fk_match := "NONE" |}.

Definition blog_table_info (t : string) : list ColumnRow :=
  if decide (t = "users") then
    [column 0 "id" "INTEGER" 0 1; column 1 "name" "TEXT" 1 0;
     column 2 "age" "INTEGER" 0 0]
  else if decide (t = "posts") then
    [column 0 "id" "INTEGER" 0 1; column 1 "user_id" "INTEGER" 0 0]
  else [].

Definition blog_foreign_key_list (t : string) : list ForeignKeyRow :=
  if decide (t = "posts") then [foreign_key 0 "users" "user_id" (Some "id")]
  else [].

Definition blog_db : Database :=
  {| sqlite_master :=
       [ master_row "table" "users";
         master_row "index" "users_name";
         master_row "table" "sqlite_sequence";
         master_row "table" "posts" ];
     table_info := blog_table_info;
     foreign_key_list := blog_foreign_key_list |}.

(** The same catalog with the rows of [sqlite_master] stored in another
    order. *)
Definition blog_db_reordered : Database :=
  {| sqlite_master :=
       [ master_row "table" "posts";
         master_row "table" "sqlite_sequence";
         master_row "index" "users_name";
         master_row "table" "users" ];
     table_info := blog_table_info;
     foreign_key_list := blog_foreign_key_list |}.

(** A table whose primary-key column has the empty name, as
    [CREATE TABLE t("" INTEGER PRIMARY KEY, x TEXT)] declares it, and a
    table that refers to itself. *)
Definition odd_db : Database :=
  {| sqlite_master :=
       [ master_row "table" "t";
         master_row "table" "node" ];
     table_info := fun t =>
       if decide (t = "t") then
         [column 0 "" "INTEGER" 0 1; column 1 "x" "TEXT" 0 0]
       else if decide (t = "node") then
         [column 0 "key" "INT" 1 0; column 1 "parent" "INT" 0 0]
       else [];
     foreign_key_list := fun t =>
       if decide (t = "node") then [foreign_key 0 "node" "parent" (Some "key")]
       else [] |}.

(** A connection to the sample catalog under one path. *)
Definition blog_connect (path : string) : Connection :=
  if decide (path = "blog.db") then Opened blog_db
  else Raised "sqlite3.OperationalError: unable to open database file".

(** ** Reading the text back

    The inverse of [join] for a one-character separator, [text.split(sep)]:
    the pieces between the occurrences of [sep]. *)
Fixpoint split_char (sep : ascii) (s : string) : list string :=
  match s with
  | EmptyString => [""]
  | String c s' =>
      if decide (c = sep) then "" :: split_char sep s'
      else match split_char sep s' with
           | [] => [String c ""]
           | piece :: pieces => String c piece :: pieces
           end
  end.

(** No character of [s] is a line feed. *)
Fixpoint no_newline (s : string) : bool :=
  match s with
  | EmptyString => true
  | String c s' => negb (bool_decide (c = "010"%char)) && no_newline s'
  end.

(** The identifiers of the catalog that reach the document are free of line
    feeds. *)
Definition names_on_one_line (db : Database) : Prop :=
  forall t, t ∈ tables db ->
    no_newline t = true /\
    (forall col, col ∈ table_info db t -> no_newline (col_name col) = true) /\
    (forall fk, fk ∈ foreign_key_list db t ->
       no_newline (referenced_table fk) = true /\
       no_newline (from_col fk) = true).

(** ** Further sample catalogs *)

(** A catalog without user tables: an index and the engine's own table. *)
Definition bare_db : Database :=
  {| sqlite_master :=
       [ master_row "index" "idx";
         master_row "table" "sqlite_sequence" ];
     table_info := fun _ => [];
     foreign_key_list := fun _ => [] |}.

(** The sample catalog without its index and without [sqlite_sequence]. *)
Definition blog_db_tables_only : Database :=
  {| sqlite_master :=
       [ master_row "table" "posts";
         master_row "table" "users" ];
     table_info := blog_table_info;
     foreign_key_list := blog_foreign_key_list |}.

(** [CREATE TABLE membership(note TEXT, team INT, person INT,
    PRIMARY KEY(person, team))]: the key ranks follow the key, not the
    columns. *)
Definition membership_db : Database :=
  {| sqlite_master := [ master_row "table" "membership" ];
     table_info := fun t =>
       if decide (t = "membership") then
         [column 0 "note" "TEXT" 0 0; column 1 "team" "INT" 0 2;
          column 2 "person" "INT" 0 1]
       else [];
     foreign_key_list := fun _ => [] |}.

(** ** What the emitter reads of a row *)

(** Two column rows with the same name, the same type up to letter case and
    the same truth values of the two flags. *)
Definition same_column (c1 c2 : ColumnRow) : Prop :=
  col_name c1 = col_name c2 /\
  upper (col_type c1) = upper (col_type c2) /\
  truthy (not_null c1) = truthy (not_null c2) /\
  truthy (is_pk c1) = truthy (is_pk c2).

(** Two foreign-key rows with the same referenced table and the same
    referencing column. *)
Definition same_reference (f1 f2 : ForeignKeyRow) : Prop :=
  referenced_table f1 = referenced_table f2 /\ from_col f1 = from_col f2.

(** The sample catalog with other column ids, default values, key ranks,
    letter case of the types, and other actions and referenced column of the
    foreign key. *)
Definition blog_db_variant : Database :=
  {| sqlite_master := sqlite_master blog_db;
     table_info := fun t =>
       if decide (t = "users") then
         [ {| col_id := 7; col_name := "id"; col_type := "integer";
              not_null := 0; default_value := None; is_pk := 3 |};
           {| col_id := 8; col_name := "name"; col_type := "Text";
              not_null := 1; default_value := Some "'anonymous'"; is_pk := 0 |};
           {| col_id := 9; col_name := "age"; col_type := "INTEGER";
              not_null := 0; default_value := Some "18"; is_pk := 0 |} ]
       else if decide (t = "posts") then
         [ column 3 "id" "Integer" 0 2; column 4 "user_id" "integer" 0 0 ]
       else [];
     foreign_key_list := fun t =>
       if decide (t = "posts") then
         [ {| fk_id := 4; seq := 2; referenced_table := "users";
              from_col := "user_id"; to_col := None; on_update := "CASCADE";
              on_delete := "SET NULL"; fk_match := "NONE" |} ]
       else [] |}.

(** Tables of a UTF-16le database named [z], [é] (U+00E9) and [Ā] (U+0100).
    The names reach Python as text (here the bytes of their UTF-8 form); the
    database stores 7A 00, E9 00 and 00 01. *)
Definition utf16_db : Database :=
  {| sqlite_master :=
       [ {| m_type := "table"; m_name := "z";
            m_stored := String "122" (String "000" "") |};
         {| m_type := "table"; m_name := String "195" (String "169" "");
            m_stored := String "233" (String "000" "") |};
         {| m_type := "table"; m_name := String "196" (String "128" "");
            m_stored := String "000" (String "001" "") |} ];
     table_info := fun _ => [column 0 "a" "TEXT" 0 0];
     foreign_key_list := fun _ => [] |}.

(** The sample catalog behind a cursor. *)
Definition blog_engine : Engine :=
  {| engine_master := sqlite_master blog_db;
     execute_table_info := fun t => Rows (blog_table_info t);
     execute_foreign_key_list := fun t => Rows (blog_foreign_key_list t) |}.

(** A database with the tables [a] and [my table], the second created as
    [CREATE TABLE "my table"(x TEXT)]: SQLite rejects the text
    [PRAGMA table_info(my table)]. *)
Definition spaced_engine : Engine :=
  {| engine_master := [ master_row "table" "my table"; master_row "table" "a" ];
     execute_table_info := fun t =>
       if decide (t = "my table") then
         OperationalError "sqlite3.OperationalError: syntax error"
       else if decide (t = "a") then Rows [column 0 "x" "TEXT" 0 0]
       else Rows [];
     execute_foreign_key_list := fun t =>
       if decide (t = "my table") then
         OperationalError "sqlite3.OperationalError: syntax error"
       else Rows [] |}.

(** * Properties *)

(** ** Strings *)

Lemma upper_cons c s : upper (c :: s) = upper_char c ++ upper s.
Proof. reflexivity. Qed.

Lemma upper_app a b : upper (a ++ b) = upper a ++ upper b.
Proof. unfold upper. apply bind_app. Qed.

Lemma to_upper_full_cases c table :
  to_upper_full c table = [c] \/ (c, to_upper_full c table) ∈ table.
Proof.
  induction table as [|[k v] table IH]; [now left|]. cbn [to_upper_full].
  destruct (c ?= k)%N eqn:Hc.
  - apply N.compare_eq in Hc as ->. right. apply list_elem_of_here.
  - now left.
  - destruct IH as [IH|IH]; [now left|]. right. now apply list_elem_of_further.
Qed.

(** No upper-case form of the table is changed by [upper]. *)
Lemma unicode_upper_fixed :
  Forall (fun kv => upper kv.2 = kv.2) unicode_upper.
Proof.
  assert (Hcheck :
    bool_decide (Forall (fun kv : N * list N => upper kv.2 = kv.2)
                   unicode_upper) = true) by (vm_compute; reflexivity).
  exact (bool_decide_eq_true_1 _ Hcheck).
Qed.

Lemma upper_char_idemp c : upper (upper_char c) = upper_char c.
Proof.
  unfold upper_char.
  destruct (to_upper_full_cases c unicode_upper) as [Hc|Hc].
  - rewrite Hc at 1. rewrite upper_cons. unfold upper_char at 1.
    rewrite Hc. reflexivity.
  - pose proof unicode_upper_fixed as Hfix. rewrite Forall_forall in Hfix.
    exact (Hfix _ Hc).
Qed.

Lemma upper_idemp s : upper (upper s) = upper s.
Proof.
  induction s as [|c s IH]; [reflexivity|].
  now rewrite upper_cons, upper_app, upper_char_idemp, IH.
Qed.

Lemma append_cons c s1 s2 : String c s1 +:+ s2 = String c (s1 +:+ s2).
Proof. reflexivity. Qed.

Lemma append_nil_l s : "" +:+ s = s.
Proof. reflexivity. Qed.

Lemma append_assoc s1 s2 s3 : (s1 +:+ s2) +:+ s3 = s1 +:+ (s2 +:+ s3).
Proof.
  induction s1 as [|c s1 IH]; [reflexivity|].
  now rewrite !append_cons, IH.
Qed.

Lemma starts_with_spec (n h : ustring) :
  starts_with n h = true <-> exists b, h = n ++ b.
Proof.
  revert h. induction n as [|c n IH]; intros h.
  - split; [intros _; now exists h|reflexivity].
  - destruct h as [|d h]; cbn [starts_with].
    + split; [discriminate|]. intros [b Hb]. discriminate.
    + rewrite andb_true_iff, N.eqb_eq, IH. split.
      * intros [-> [b ->]]. now exists b.
      * intros [b Hb]. injection Hb as -> ->. split; [reflexivity|now exists b].
Qed.

(** [contains] is the substring relation. *)
Lemma contains_spec (n h : ustring) : contains n h = true <-> occurs n h.
Proof.
  unfold occurs.
  induction h as [|d h IH]; cbn [contains]; rewrite orb_true_iff.
  - split.
    + intros [Hp|]; [|discriminate].
      apply starts_with_spec in Hp as [b Hb]. now exists [], b.
    + intros ([|c a] & b & Hab); [|discriminate].
      left. apply starts_with_spec. now exists b.
  - rewrite IH. split.
    + intros [Hp|(a & b & ->)].
      * apply starts_with_spec in Hp as [b Hb]. now exists [], b.
      * now exists (d :: a), b.
    + intros ([|c a] & b & Hab).
      * left. apply starts_with_spec. now exists b.
      * right. injection Hab as -> ->. now exists a, b.
Qed.

Lemma contains_false_spec (n h : ustring) :
  contains n h = false <-> ~ occurs n h.
Proof.
  rewrite <- contains_spec. now destruct (contains n h).
Qed.

(** ** The type normalizer *)

Lemma type_mapping_lookup (u : ustring) :
  u <> "INTEGER" -> type_mapping !! u = render <$> spec_table !! u.
Proof.
  intros Hu. unfold type_mapping. rewrite list_to_map_cons.
  rewrite lookup_insert_ne by congruence.
  rewrite <- lookup_fmap. unfold spec_table.
  now rewrite <- list_to_map_fmap.
Qed.

Lemma contains_INT_INTEGER (u : ustring) :
  contains "INT" u = false -> u <> "INTEGER".
Proof. intros H ->. vm_compute in H. discriminate. Qed.

(** The local [diesel_type] is the rendering of an abstract type: the entry
    [INTEGER] of [type_mapping], which the specification's table leaves out,
    is never reached, since rule 1 takes every name with [INT]. *)
Lemma diesel_type_classify s : diesel_type s = render (classify s).
Proof.
  unfold diesel_type, classify. set (u := upper s).
  destruct (contains "INT" u) eqn:HINT; [reflexivity|].
  destruct (contains "CHAR" u), (contains "TEXT" u); try reflexivity.
  destruct (contains "REAL" u), (contains "FLOAT" u), (contains "DOUBLE" u);
    try reflexivity.
  destruct (contains "DATE" u); [destruct (contains "TIME" u); reflexivity|].
  cbn [orb]. rewrite type_mapping_lookup by now apply contains_INT_INTEGER.
  now destruct (spec_table !! u).
Qed.

Lemma render_not_wrapped t t' : render t <> "Nullable<" +:+ render t' +:+ ">".
Proof. destruct t, t'; discriminate. Qed.

Lemma render_inj t t' : render t = render t' -> t = t'.
Proof. destruct t, t'; (reflexivity || discriminate). Qed.

(** On ASCII, [str.upper] turns the letters a-z into A-Z and changes nothing
    else. *)
Lemma upper_char_ascii :
  Forall (fun n => upper_char (N.of_nat n) = fold_case_char (N.of_nat n))
    (List.seq 0 128).
Proof.
  assert (Hcheck :
    bool_decide
      (Forall (fun n => upper_char (N.of_nat n) = fold_case_char (N.of_nat n))
         (List.seq 0 128)) = true) by (vm_compute; reflexivity).
  exact (bool_decide_eq_true_1 _ Hcheck).
Qed.

Lemma upper_char_fold c : upper_char c = fold_case_char c.
Proof.
  destruct (N.ltb_spec c 128) as [Hlt|Hge].
  - pose proof upper_char_ascii as Hall. rewrite Forall_seq in Hall.
    specialize (Hall (N.to_nat c)). rewrite N2Nat.id in Hall.
    apply Hall. lia.
  - unfold fold_case_char, upper_char.
    assert (Hc : (c <=? 122)%N = false) by (apply N.leb_gt; lia).
    assert (Hc' : (c <? 128)%N = false) by (apply N.ltb_ge; lia).
    now rewrite Hc, andb_false_r, Hc'.
Qed.

Lemma upper_fold s : upper s = fold_case s.
Proof.
  induction s as [|c s IH]; [reflexivity|].
  rewrite upper_cons, IH, upper_char_fold. reflexivity.
Qed.

(** The substring tests of the script are the case-insensitive matches of
    the specification. *)
Lemma occurs_ci_contains (needle s : ustring) :
  fold_case needle = needle ->
  occurs_ci needle s <-> contains needle (upper s) = true.
Proof.
  intros Hn. unfold occurs_ci. now rewrite Hn, contains_spec, upper_fold.
Qed.

(** The rule list of the specification singles out the abstract type the
    script computes. *)
Lemma classified_iff s t : classified s t <-> t = classify s.
Proof.
  unfold classified, spec_rules, first_match, spec_lookup, gives, classify.
  rewrite (occurs_ci_contains "INT" s eq_refl),
    (occurs_ci_contains "CHAR" s eq_refl),
    (occurs_ci_contains "TEXT" s eq_refl),
    (occurs_ci_contains "REAL" s eq_refl),
    (occurs_ci_contains "FLOAT" s eq_refl),
    (occurs_ci_contains "DOUBLE" s eq_refl),
    (occurs_ci_contains "DATE" s eq_refl),
    (occurs_ci_contains "TIME" s eq_refl).
  rewrite <- upper_fold. generalize (upper s). intros u.
  destruct (contains "INT" u); [intuition congruence|].
  destruct (contains "CHAR" u); [intuition congruence|].
  destruct (contains "TEXT" u); [intuition congruence|].
  destruct (contains "REAL" u); [intuition congruence|].
  destruct (contains "FLOAT" u); [intuition congruence|].
  destruct (contains "DOUBLE" u); [intuition congruence|].
  destruct (contains "DATE" u);
    [destruct (contains "TIME" u); intuition congruence|].
  cbn [orb]. intuition congruence.
Qed.

(** [C1] The normalizer of the script computes the rule list of the
    specification: for every raw type name and nullability flag, its result
    is a value of [normalize] (the first of the case-insensitive substring
    rules that matches, in the fixed priority order, else the exact-match
    table with default Text, wrapped when the flag is set) and the only one;
    the result has the form Nullable<...> exactly when the flag is true. *)
Theorem sql_type_to_diesel_type_normalize (s : ustring) (nullable : bool) :
  normalize s nullable (sql_type_to_diesel_type s nullable) /\
  (forall text, normalize s nullable text ->
                text = sql_type_to_diesel_type s nullable) /\
  ((exists t, sql_type_to_diesel_type s nullable
              = "Nullable<" +:+ render t +:+ ">") <-> nullable = true).
Proof.
  assert (Heq : sql_type_to_diesel_type s nullable
                = render_nullable (classify s) nullable).
  { unfold sql_type_to_diesel_type, render_nullable.
    now rewrite diesel_type_classify. }
  split; [|split].
  - exists (classify s). split; [now apply classified_iff|exact Heq].
  - intros text (t & Ht & ->). apply classified_iff in Ht as ->. now rewrite Heq.
  - rewrite Heq. unfold render_nullable. destruct nullable.
    + split; [reflexivity|]. intros _. now exists (classify s).
    + split; [|discriminate]. intros [t Ht]. now apply render_not_wrapped in Ht.
Qed.

(** [C7] The normalizer is total: on every string and flag it returns the
    rendering of one abstract column type of the closed vocabulary, wrapped
    when the flag is set; the table of sample type names of the specification
    evaluates as listed. *)
Theorem sql_type_to_diesel_type_total :
  (forall (s : ustring) (nullable : bool),
      exists t, sql_type_to_diesel_type s nullable = render_nullable t nullable) /\
  sql_type_to_diesel_type "" false = render Text /\
  sql_type_to_diesel_type "INT" false = render Integer /\
  sql_type_to_diesel_type "VARCHAR(50)" false = render Text /\
  sql_type_to_diesel_type "DOUBLE" false = render Float /\
  sql_type_to_diesel_type "BOOLEAN" false = render Bool /\
  sql_type_to_diesel_type "DATETIME" false = render Timestamp /\
  sql_type_to_diesel_type "DATE" false = render Date /\
  sql_type_to_diesel_type "BLOB" false = render Binary /\
  sql_type_to_diesel_type "FOOBAR" false = render Text.
Proof.
  split.
  - intros s nullable. exists (classify s).
    unfold sql_type_to_diesel_type, render_nullable.
    now rewrite diesel_type_classify.
  - repeat split; vm_compute; reflexivity.
Qed.

(** Two type names with the same upper-case form get the same result. *)
Lemma sql_type_to_diesel_type_upper_eq s s' nullable :
  upper s = upper s' ->
  sql_type_to_diesel_type s nullable = sql_type_to_diesel_type s' nullable.
Proof.
  intros Hu. unfold sql_type_to_diesel_type, diesel_type. now rewrite Hu.
Qed.

(** [C10] The normalizer does not look at letter case: a type name and its
    upper-case form get the same result, where the upper-case form is taken
    character by character, turns the ASCII letters a-z into A-Z, leaves the
    other ASCII characters alone and follows Unicode beyond ASCII (dotless i
    becomes I, the ligature fl becomes FL); the table lookup of the last rule
    is made on the upper-case form too, so that [boolean] is Bool and not
    the default Text. *)
Theorem sql_type_to_diesel_type_case_insensitive :
  (forall (s : ustring) (nullable : bool),
      sql_type_to_diesel_type s nullable
      = sql_type_to_diesel_type (upper s) nullable) /\
  (forall a b : ustring, upper (a ++ b) = upper a ++ upper b) /\
  (forall c : N,
      (c < 128)%N ->
      upper [c] = if ((97 <=? c) && (c <=? 122))%N then [(c - 32)%N] else [c]) /\
  upper "abcdefghijklmnopqrstuvwxyz" = "ABCDEFGHIJKLMNOPQRSTUVWXYZ" /\
  upper [305; 110; 116]%N = "INT" /\
  upper [64258; 111; 97; 116]%N = "FLOAT" /\
  upper "boolean" = "BOOLEAN" /\
  sql_type_to_diesel_type "boolean" false = "Bool" /\
  sql_type_to_diesel_type "Blob" true = "Nullable<Binary>" /\
  sql_type_to_diesel_type "tImEsTaMp" false = "Timestamp" /\
  sql_type_to_diesel_type [116; 305; 109; 101]%N false = "Time".
Proof.
  split; [|split; [|split]].
  - intros s nullable. apply sql_type_to_diesel_type_upper_eq.
    now rewrite upper_idemp.
  - apply upper_app.
  - intros c Hc. rewrite upper_cons, app_nil_r, upper_char_fold.
    unfold fold_case_char. apply N.ltb_lt in Hc. rewrite Hc.
    now destruct ((97 <=? c) && (c <=? 122))%N.
  - repeat split; vm_compute; reflexivity.
Qed.

Lemma sql_type_to_diesel_type_case_insensitive_witness :
  upper [100%N] = [68%N].
Proof.
  destruct sql_type_to_diesel_type_case_insensitive as (_ & _ & Hascii & _).
  apply (Hascii 100%N). reflexivity.
Defined.

(** ** The loops of the emitter *)

Section Accumulators.
Context {A B : Type}.

(** A loop that appends one element per iteration. *)
Lemma fold_left_snoc (f : A -> B) (l : list A) (acc : list B) :
  fold_left (fun acc x => acc ++ [f x]) l acc = acc ++ (f <$> l).
Proof.
  revert acc. induction l as [|x l IH]; intros acc; simpl.
  - now rewrite app_nil_r.
  - rewrite IH, <- app_assoc. reflexivity.
Qed.

(** A loop that appends some elements per iteration. *)
Lemma fold_left_extend (g : A -> list B) (l : list A) (acc : list B) :
  fold_left (fun acc x => acc ++ g x) l acc = acc ++ (l ≫= g).
Proof.
  revert acc. induction l as [|x l IH]; intros acc; cbn [fold_left].
  - now rewrite app_nil_r.
  - rewrite IH, bind_cons, <- app_assoc. reflexivity.
Qed.
End Accumulators.

Lemma joinable_loop t fks acc :
  fold_left
    (fun acc fk =>
       if decide (referenced_table fk <> t)
       then acc ++ [joinable_line t fk] else acc) fks acc
  = acc ++ (fks ≫= statements_for t).
Proof.
  rewrite <- fold_left_extend. revert acc.
  induction fks as [|fk fks IH]; intros acc; simpl; [reflexivity|].
  rewrite <- IH. f_equal. unfold statements_for, joinable_line.
  destruct (decide (referenced_table fk <> t)) as [Hne|He];
    destruct (decide (referenced_table fk = t)) as [He'|Hne'];
    try reflexivity; try contradiction.
  now rewrite app_nil_r.
Qed.

Lemma emit_table_schema_lines db st t :
  schema_lines (emit_table db st t) = schema_lines st ++ table_block db t.
Proof.
  unfold emit_table, emit_rows, table_block, table_line. cbn [schema_lines].
  rewrite fold_left_snoc. rewrite <- !app_assoc. reflexivity.
Qed.

Lemma emit_table_joinable_lines db st t :
  joinable_lines (emit_table db st t)
  = joinable_lines st ++ (foreign_key_list db t ≫= statements_for t).
Proof.
  unfold emit_table, emit_rows. cbn [joinable_lines]. apply joinable_loop.
Qed.

(** The state after the main loop has gone through the tables [ts]. *)
Lemma emit_tables db ts st :
  fold_left (emit_table db) ts st =
  {| schema_lines := schema_lines st ++ (ts ≫= table_block db);
     joinable_lines :=
       joinable_lines st
         ++ (ts ≫= fun t => foreign_key_list db t ≫= statements_for t) |}.
Proof.
  revert st. induction ts as [|t ts IH]; intros st.
  - destruct st. simpl. now rewrite !app_nil_r.
  - cbn [fold_left]. rewrite IH, emit_table_schema_lines,
      emit_table_joinable_lines, !bind_cons, <- !app_assoc. reflexivity.
Qed.

(** The document, part by part. *)
Lemma generate_schema_lines_layout db :
  generate_schema_lines db =
  header ++ (tables db ≫= table_block db) ++ relationship_statements db
    ++ separator (relationship_statements db)
    ++ collection_statement (tables db).
Proof.
  unfold generate_schema_lines, finish_lines. rewrite emit_tables.
  cbn [schema_lines joinable_lines].
  rewrite fold_left_snoc. rewrite app_nil_l.
  fold (relationship_statements db). unfold collection_statement.
  destruct (relationship_statements db) as [|j js]; cbn [separator].
  - rewrite !app_nil_l, <- !app_assoc. reflexivity.
  - rewrite <- !app_assoc. reflexivity.
Qed.


(** ** Columns and primary keys *)

(** [C2] The flag handed to the normalizer for a column is
    (not not-null) and (not primary-key): a primary-key column is rendered
    with the bare type whatever its not-null flag, and a column that is
    neither not-null nor primary key is rendered as Nullable<...> of its
    type; the bare type is one of the abstract column types. *)
Theorem column_line_nullability (col : ColumnRow) :
  column_line col =
    "        " +:+ col_name col +:+ " -> "
      +:+ sql_type_to_diesel_type (col_type col)
            (negb (truthy (not_null col)) && negb (truthy (is_pk col)))
      +:+ "," /\
  column_line col =
    "        " +:+ col_name col +:+ " -> "
      +:+ (if truthy (is_pk col) then diesel_type (col_type col)
           else if truthy (not_null col) then diesel_type (col_type col)
           else "Nullable<" +:+ diesel_type (col_type col) +:+ ">")
      +:+ "," /\
  (exists t, diesel_type (col_type col) = render t) /\
  column_line (column 1 "bio" "TEXT" 0 0) = "        bio -> Nullable<Text>," /\
  column_line (column 0 "id" "INTEGER" 0 1) = "        id -> Integer,".
Proof.
  split; [reflexivity|]. split; [|split].
  - unfold column_line, sql_type_to_diesel_type.
    destruct (truthy (is_pk col)), (truthy (not_null col)); reflexivity.
  - exists (classify (col_type col)). apply diesel_type_classify.
  - split; vm_compute; reflexivity.
Qed.

(** The search loop returns the name of the first column, in the order of
    the rows, whose primary-key entry is true. *)
Lemma find_primary_key_Some columns name :
  find_primary_key columns = Some name <->
  exists before col after,
    columns = before ++ col :: after /\
    Forall (fun c => truthy (is_pk c) = false) before /\
    truthy (is_pk col) = true /\ col_name col = name.
Proof.
  induction columns as [|c columns IH]; simpl.
  - split; [discriminate|]. intros ([|? ?] & ? & ? & ? & _); discriminate.
  - destruct (truthy (is_pk c)) eqn:Hc.
    + split.
      * intros [= <-]. exists [], c, columns. repeat split; auto.
      * intros ([|c' before] & col & after & Heq & Hb & Hcol & Hn).
        -- injection Heq as -> _. now rewrite Hn.
        -- injection Heq as -> _. apply Forall_cons in Hb as [Hc' _]. congruence.
    + rewrite IH. split.
      * intros (before & col & after & -> & Hb & Hcol & Hn).
        exists (c :: before), col, after. repeat split; auto.
      * intros ([|c' before] & col & after & Heq & Hb & Hcol & Hn).
        -- injection Heq as -> _. congruence.
        -- injection Heq as -> ->. apply Forall_cons in Hb as [_ Hb].
           now exists before, col, after.
Qed.

Lemma find_primary_key_None columns :
  find_primary_key columns = None <->
  Forall (fun c => truthy (is_pk c) = false) columns.
Proof.
  induction columns as [|c columns IH]; simpl.
  - split; auto.
  - rewrite Forall_cons. destruct (truthy (is_pk c)); [|tauto].
    split; [discriminate|]. intros [? _]. discriminate.
Qed.

(** With a named key column the identifier is that name; without a key
    column it is [id]. *)
Lemma primary_key_found columns name :
  find_primary_key columns = Some name -> name <> "" ->
  primary_key columns = name.
Proof.
  intros Hf Hn. unfold primary_key. rewrite Hf.
  now destruct (decide (name = "")).
Qed.

Lemma primary_key_fallback columns :
  find_primary_key columns = None -> primary_key columns = "id".
Proof. intros Hf. unfold primary_key. now rewrite Hf. Qed.

(** [C5] At a table whose first primary-key column has the empty name, the
    identifier in the block-opening line is the fallback [id], not the name
    of that column. *)
Theorem primary_key_empty_name :
  find_primary_key (table_info odd_db "t") = Some "" /\
  primary_key (table_info odd_db "t") = "id" /\
  table_block odd_db "t" !! 1 = Some "    t (id) {" /\
  generate_schema_lines odd_db !! 10 = Some "    t (id) {".
Proof. repeat split; vm_compute; reflexivity. Qed.

(** ** The document *)

Lemma statements_for_filter t fks :
  fks ≫= statements_for t
  = (fun fk => "diesel::joinable!(" +:+ t +:+ " -> " +:+ referenced_table fk
                 +:+ " (" +:+ from_col fk +:+ "));")
      <$> filter (fun fk => referenced_table fk <> t) fks.
Proof.
  induction fks as [|fk fks IH]; [reflexivity|].
  rewrite bind_cons, IH, filter_cons. unfold statements_for at 1.
  destruct (decide (referenced_table fk = t)) as [He|Hne];
    destruct (decide (referenced_table fk <> t)) as [Hne'|He'];
    try reflexivity; contradiction.
Qed.

Lemma separator_nil_iff (stmts : list string) :
  (separator stmts = [""] <-> stmts <> []) /\
  (separator stmts = [] <-> stmts = []).
Proof. destruct stmts; simpl; repeat split; congruence. Qed.

(** [C3] After the table blocks the document has, for the tables in their
    order and for the foreign keys of each table in catalog order, one
    statement [diesel::joinable!(owner -> referenced (column));] per foreign
    key whose referenced table differs from the owning table and none for a
    foreign key of a table to itself; one blank line follows exactly when
    there is at least one statement; the collection statement comes last. *)
Theorem joinable_statements_emitted (db : Database) :
  let statements :=
    tables db ≫= (fun t =>
      (fun fk => "diesel::joinable!(" +:+ t +:+ " -> " +:+ referenced_table fk
                   +:+ " (" +:+ from_col fk +:+ "));")
        <$> filter (fun fk => referenced_table fk <> t)
              (foreign_key_list db t)) in
  generate_schema_lines db =
    ["// @generated automatically by generate_schema.py"; ""]
      ++ (tables db ≫= table_block db)
      ++ statements
      ++ (if decide (statements = []) then [] else [""])
      ++ ["diesel::allow_tables_to_appear_in_same_query!("]
      ++ ((fun t => "    " +:+ t +:+ ",") <$> tables db) ++ [");"] /\
  length statements =
    sum_list
      ((fun t => length (filter (fun fk => referenced_table fk <> t)
                           (foreign_key_list db t))) <$> tables db).
Proof.
  intros statements.
  assert (Hst : relationship_statements db = statements).
  { unfold relationship_statements, statements.
    induction (tables db) as [|t ts IH]; [reflexivity|].
    now rewrite !bind_cons, IH, statements_for_filter. }
  split.
  - rewrite generate_schema_lines_layout, Hst. clearbody statements.
    unfold collection_statement, header.
    destruct (decide (statements = [])) as [->|Hne]; [reflexivity|].
    destruct statements; [contradiction|]. reflexivity.
  - clear Hst. unfold statements. clear statements.
    induction (tables db) as [|t ts IH]; [reflexivity|].
    rewrite bind_cons, length_app, IH, length_fmap, fmap_cons. reflexivity.
Qed.

(** A table without columns gets the block made of the opening lines with
    the fallback key [id], no column line, the closing lines and the blank
    line. *)
Lemma table_block_without_columns (db : Database) (t : string) :
  table_info db t = [] ->
  table_block db t =
    ["diesel::table! {"; "    " +:+ t +:+ " (id) {"; "    }"; "}"; ""].
Proof. intros Hcols. unfold table_block. rewrite Hcols. reflexivity. Qed.

(** ** Order of the tables *)

#[global] Instance stored_le_po : PartialOrder stored_le.
Proof.
  split; [split|].
  - intros r. split; [reflexivity|]. intros _. reflexivity.
  - intros r1 r2 r3 [H12 H12'] [H23 H23']. split; [now transitivity r2.1|].
    intros H13. rewrite H13 in H12.
    assert (H21 : r2.1 = r3.1) by now apply (anti_symm String.le).
    transitivity r2.2; [apply H12'; congruence|now apply H23'].
  - intros [s1 n1] [s2 n2] [H12 H12'] [H21 H21']. simpl in *.
    assert (Hs : s1 = s2) by now apply (anti_symm String.le).
    subst s2. f_equal. apply (anti_symm String.le); auto.
Qed.

#[global] Instance stored_le_total : Total stored_le.
Proof.
  intros [s1 n1] [s2 n2]. unfold stored_le. simpl.
  destruct (decide (s1 = s2)) as [->|Hne].
  - destruct (total String.le n1 n2); [left|right]; split; auto; reflexivity.
  - destruct (total String.le s1 s2); [left|right]; split; auto; congruence.
Qed.

Lemma select_rows_Sorted master : StronglySorted stored_le (select_rows master).
Proof. apply StronglySorted_merge_sort; apply _. Qed.

Lemma select_rows_Permutation master :
  select_rows master
    ≡ₚ (fun r => (m_stored r, m_name r)) <$> filter is_user_table master.
Proof. apply merge_sort_Permutation. Qed.

Lemma tables_Permutation db :
  tables db ≡ₚ m_name <$> filter is_user_table (sqlite_master db).
Proof.
  unfold tables, select_names. rewrite select_rows_Permutation.
  rewrite <- list_fmap_compose. reflexivity.
Qed.

(** The order in which [sqlite_master] stores its rows does not matter. *)
Lemma select_rows_unique master1 master2 :
  filter is_user_table master1 ≡ₚ filter is_user_table master2 ->
  select_rows master1 = select_rows master2.
Proof.
  intros Hp. apply (StronglySorted_unique stored_le);
    try apply select_rows_Sorted.
  rewrite !select_rows_Permutation. now rewrite Hp.
Qed.

Section SortedLookup.
Context {A : Type} (R : relation A).

(** In a sorted list an earlier element is below a later one. *)
Lemma StronglySorted_lookup (l : list A) (i j : nat) (a b : A) :
  StronglySorted R l -> l !! i = Some a -> l !! j = Some b -> i < j ->
  R a b.
Proof.
  intros Hs. revert i j. induction Hs as [|x l Hs IH Hx]; intros i j Hi Hj Hij.
  - discriminate.
  - destruct j as [|j]; [lia|]. destruct i as [|i]; simpl in *.
    + injection Hi as <-. rewrite Forall_forall in Hx. apply Hx.
      now apply list_elem_of_lookup_2 with j.
    + apply (IH i j); auto. lia.
Qed.
End SortedLookup.

Lemma string_compare_refl s : (s ?= s)%string = Eq.
Proof.
  pose proof (String.compare_antisym s s) as H.
  destruct (s ?= s)%string; simpl in H; congruence.
Qed.

(** The strict order of [String.ltb] is [String.le] without equality. *)
Lemma string_ltb_le a b :
  String.ltb a b = true <-> String.le a b /\ a <> b.
Proof.
  unfold String.le, String.ltb, String.leb.
  destruct (a ?= b)%string eqn:Hc; simpl.
  - apply String.compare_eq_iff in Hc. split; [discriminate|]. tauto.
  - split; [|reflexivity]. intros _. split; [exact I|].
    intros ->. rewrite string_compare_refl in Hc. discriminate.
  - split; [discriminate|]. intros [[] _].
Qed.

Lemma table_block_length db t :
  length (table_block db t) = 5 + length (table_info db t).
Proof.
  unfold table_block. rewrite !length_app, length_fmap. simpl. lia.
Qed.

Lemma block_start_S db i t :
  tables db !! i = Some t ->
  block_start db (S i) = block_start db i + length (table_block db t).
Proof.
  intros Hi. unfold block_start.
  rewrite (take_S_r _ _ _ Hi), bind_app, length_app.
  change ([t] ≫= table_block db) with (table_block db t ++ []).
  rewrite app_nil_r. lia.
Qed.

(** Blocks do not overlap: a later table starts further down. *)
Lemma block_start_lt db i j :
  i < j -> j <= length (tables db) -> block_start db i < block_start db j.
Proof.
  induction j as [|j IH]; intros Hij Hj; [lia|].
  destruct (lookup_lt_is_Some_2 (tables db) j) as [t Ht]; [lia|].
  rewrite (block_start_S _ _ _ Ht), table_block_length.
  destruct (decide (i = j)) as [->|Hne]; [lia|].
  assert (block_start db i < block_start db j) by (apply IH; lia). lia.
Qed.

Lemma block_start_lt_iff db i j a b :
  tables db !! i = Some a -> tables db !! j = Some b ->
  block_start db i < block_start db j <-> i < j.
Proof.
  intros Hi%lookup_lt_Some Hj%lookup_lt_Some. split.
  - intros Hlt. destruct (decide (i < j)) as [|Hge]; [assumption|].
    destruct (decide (i = j)) as [->|Hne]; [lia|].
    assert (block_start db j < block_start db i)
      by (apply block_start_lt; lia). lia.
  - intros Hij. apply block_start_lt; lia.
Qed.

Lemma lookup_middle {A} (l1 l2 l3 : list A) (k : nat) :
  k < length l2 -> (l1 ++ l2 ++ l3) !! (length l1 + k) = l2 !! k.
Proof.
  intros Hk. rewrite lookup_app_r by lia.
  replace (length l1 + k - length l1) with k by lia.
  now apply lookup_app_l.
Qed.

(** The lines of the block of the [i]-th table lie at [block_start db i]. *)
Lemma block_lines db i t k :
  tables db !! i = Some t -> k < length (table_block db t) ->
  generate_schema_lines db !! (block_start db i + k) = table_block db t !! k.
Proof.
  intros Hi Hk. rewrite generate_schema_lines_layout.
  assert (Hsplit : tables db ≫= table_block db =
            (take i (tables db) ≫= table_block db)
              ++ table_block db t
              ++ (drop (S i) (tables db) ≫= table_block db)).
  { rewrite <- (take_drop_middle _ _ _ Hi) at 1.
    now rewrite bind_app, bind_cons. }
  rewrite Hsplit. unfold block_start.
  rewrite <- !app_assoc, app_assoc, <- length_app.
  now apply lookup_middle.
Qed.

Lemma select_rows_name db i (s a : string) :
  select_rows (sqlite_master db) !! i = Some (s, a) -> tables db !! i = Some a.
Proof.
  intros Hi. unfold tables, select_names. rewrite list_lookup_fmap, Hi.
  reflexivity.
Qed.

(** Blocks follow the bytes the database stores for the names. *)
Lemma block_order_stored db i j (sa a sb b : string) :
  select_rows (sqlite_master db) !! i = Some (sa, a) ->
  select_rows (sqlite_master db) !! j = Some (sb, b) ->
  sa <> sb ->
  block_start db i < block_start db j <-> String.ltb sa sb = true.
Proof.
  intros Hi Hj Hab.
  rewrite (block_start_lt_iff db i j a b
             (select_rows_name db i sa a Hi) (select_rows_name db j sb b Hj)).
  rewrite string_ltb_le.
  pose proof (select_rows_Sorted (sqlite_master db)) as Hs. split.
  - intros Hij. split; [|assumption].
    exact (proj1 (StronglySorted_lookup stored_le _ i j _ _ Hs Hi Hj Hij)).
  - intros [Hle _]. destruct (decide (i < j)) as [|Hge]; [assumption|].
    destruct (decide (i = j)) as [->|Hne]; [congruence|].
    assert (Hba : stored_le (sb, b) (sa, a)).
    { apply (StronglySorted_lookup stored_le _ j i _ _ Hs Hj Hi). lia. }
    destruct Hab. apply (anti_symm String.le); [assumption|apply Hba].
Qed.

(** In a UTF-8 database the stored bytes are the bytes of the name. *)
Lemma select_rows_utf8 db i (s a : string) :
  (forall r, r ∈ sqlite_master db -> m_stored r = m_name r) ->
  select_rows (sqlite_master db) !! i = Some (s, a) -> s = a.
Proof.
  intros Hutf8 Hi. apply list_elem_of_lookup_2 in Hi.
  rewrite select_rows_Permutation in Hi.
  apply list_elem_of_fmap in Hi as (r & [= -> ->] & Hr).
  apply list_elem_of_filter in Hr as [_ Hr]. now apply Hutf8.
Qed.

(** [C4] For two tables, the block of the first starts above the block of
    the second exactly when the bytes the database stores for its name come
    first in byte order (SQLite's BINARY collation); in a UTF-8 database
    these are the bytes of the name, and the blocks are in the lexicographic
    order of the names.  Each block opens with the line that names its
    table, and the document ends with the collection statement, which lists
    the names of all selected tables, one per line, in the order of the
    blocks, followed by the closing marker. *)
Theorem table_blocks_in_stored_order (db : Database) :
  (forall (i j : nat) (sa a sb b : string),
      select_rows (sqlite_master db) !! i = Some (sa, a) ->
      select_rows (sqlite_master db) !! j = Some (sb, b) ->
      sa <> sb ->
      (block_start db i < block_start db j <-> String.ltb sa sb = true)) /\
  ((forall r, r ∈ sqlite_master db -> m_stored r = m_name r) ->
   forall (i j : nat) (a b : string),
     tables db !! i = Some a -> tables db !! j = Some b -> a <> b ->
     (block_start db i < block_start db j <-> String.ltb a b = true)) /\
  (forall (i : nat) (a : string),
      tables db !! i = Some a ->
      generate_schema_lines db !! block_start db i = Some "diesel::table! {" /\
      generate_schema_lines db !! (block_start db i + 1)
        = Some ("    " +:+ a +:+ " (" +:+ primary_key (table_info db a)
                  +:+ ") {")) /\
  tables db ≡ₚ m_name <$> filter is_user_table (sqlite_master db) /\
  exists before,
    generate_schema_lines db =
      before ++ ["diesel::allow_tables_to_appear_in_same_query!("]
        ++ ((fun t => "    " +:+ t +:+ ",") <$> tables db) ++ [");"].
Proof.
  split; [|split; [|split; [|split]]].
  - apply block_order_stored.
  - intros Hutf8 i j a b Hi Hj Hab.
    unfold tables, select_names in Hi, Hj.
    rewrite list_lookup_fmap in Hi, Hj.
    destruct (select_rows (sqlite_master db) !! i) as [[sa a']|] eqn:Hri;
      [|discriminate].
    destruct (select_rows (sqlite_master db) !! j) as [[sb b']|] eqn:Hrj;
      [|discriminate].
    simpl in Hi, Hj. injection Hi as ->. injection Hj as ->.
    pose proof (select_rows_utf8 db i sa a Hutf8 Hri) as ->.
    pose proof (select_rows_utf8 db j sb b Hutf8 Hrj) as ->.
    now apply (block_order_stored db i j a a b b).
  - intros i a Hi. split.
    + rewrite <- (Nat.add_0_r (block_start db i)).
      rewrite (block_lines db i a 0 Hi); [reflexivity|].
      rewrite table_block_length. lia.
    + rewrite (block_lines db i a 1 Hi); [reflexivity|].
      rewrite table_block_length. lia.
  - apply tables_Permutation.
  - exists (header ++ (tables db ≫= table_block db)
              ++ relationship_statements db
              ++ separator (relationship_statements db)).
    rewrite generate_schema_lines_layout. unfold collection_statement.
    now rewrite <- !app_assoc.
Qed.

(** Case analysis on the membership in a list written out. *)
Ltac members H :=
  repeat (apply elem_of_cons in H as [->|H]);
  try (apply elem_of_nil in H; destruct H).

Lemma table_blocks_in_stored_order_witness :
  block_start blog_db 0 < block_start blog_db 1
  <-> String.ltb "posts" "users" = true.
Proof.
  destruct (table_blocks_in_stored_order blog_db) as (_ & Hutf8 & _).
  apply (Hutf8 ltac:(intros r Hr; cbn in Hr; members Hr; reflexivity)
           0 1 "posts" "users").
  - vm_compute. reflexivity.
  - vm_compute. reflexivity.
  - discriminate.
Defined.

(** In a UTF-16le database the block of [Ā] comes before the block of [z],
    although [z] is the smaller name. *)
Lemma utf16_blocks_not_in_name_order :
  tables utf16_db !! 0 = Some (String "196" (String "128" "")) /\
  tables utf16_db !! 1 = Some "z" /\
  ~ (block_start utf16_db 0 < block_start utf16_db 1
     <-> String.ltb (String "196" (String "128" "")) "z" = true).
Proof.
  split; [vm_compute; reflexivity|]. split; [vm_compute; reflexivity|].
  intros [Hlt _].
  assert (Hstart : block_start utf16_db 0 < block_start utf16_db 1)
    by (vm_compute; lia).
  specialize (Hlt Hstart). vm_compute in Hlt. discriminate.
Qed.

(** ** Determinism *)

Lemma bind_ext_elem_of {A B} (f g : A -> list B) (l : list A) :
  (forall x, x ∈ l -> f x = g x) -> l ≫= f = l ≫= g.
Proof.
  induction l as [|x l IH]; intros Hfg; [reflexivity|].
  rewrite !bind_cons, IH, (Hfg x).
  - reflexivity.
  - apply list_elem_of_here.
  - intros y Hy. apply Hfg. now apply list_elem_of_further.
Qed.

(** The order in which [sqlite_master] stores its rows does not matter. *)
Lemma tables_Permutation_eq db1 db2 :
  sqlite_master db1 ≡ₚ sqlite_master db2 -> tables db1 = tables db2.
Proof.
  intros Hp. unfold tables, select_names. f_equal.
  apply select_rows_unique. now rewrite Hp.
Qed.

(** [C6] The document is a function of the catalog's content alone: two
    catalogs that hold the same rows of [sqlite_master], in whatever order
    they are stored, and the same column and foreign-key rows for the
    selected tables yield the same text, character by character. *)
Theorem generate_schema_deterministic (db1 db2 : Database) :
  sqlite_master db1 ≡ₚ sqlite_master db2 ->
  (forall t, t ∈ tables db1 -> table_info db1 t = table_info db2 t) ->
  (forall t, t ∈ tables db1 -> foreign_key_list db1 t = foreign_key_list db2 t) ->
  generate_schema db1 = generate_schema db2.
Proof.
  intros Hm Hc Hf. unfold generate_schema. f_equal.
  rewrite !generate_schema_lines_layout. unfold relationship_statements.
  rewrite <- (tables_Permutation_eq db1 db2 Hm).
  rewrite (bind_ext_elem_of (table_block db1) (table_block db2)).
  - rewrite (bind_ext_elem_of
               (fun t => foreign_key_list db1 t ≫= statements_for t)
               (fun t => foreign_key_list db2 t ≫= statements_for t)).
    + reflexivity.
    + intros t Ht. now rewrite (Hf t Ht).
  - intros t Ht. unfold table_block. now rewrite (Hc t Ht).
Qed.

Lemma generate_schema_deterministic_witness :
  generate_schema blog_db = generate_schema blog_db_reordered.
Proof.
  apply generate_schema_deterministic.
  - exact (Permutation_rev (sqlite_master blog_db)).
  - intros t _. reflexivity.
  - intros t _. reflexivity.
Defined.

(** ** The entry point *)

(** The document starts with the comment of the header. *)
Lemma generate_schema_head db : exists rest, generate_schema db = String "/" rest.
Proof.
  unfold generate_schema. rewrite generate_schema_lines_layout.
  eexists. reflexivity.
Qed.

(** [C9] With an argument list that is not the script name and one path,
    the run ends with status 1, its standard output holds the usage line and
    no schema document, and nothing goes to the diagnostic stream; with one
    path whose catalog can be read, the run ends with status 0 and its
    standard output is the whole document. *)
Theorem main_outcome (connect : string -> Connection) :
  (forall argv : list string,
      length argv <> 2 ->
      exit_status (main connect argv) = 1%Z /\
      stdout (main connect argv) = usage +:+ nl /\
      stderr (main connect argv) = "" /\
      forall db', stdout (main connect argv) <> generate_schema db' +:+ nl) /\
  (forall (prog path : string) (db : Database),
      connect path = Opened db ->
      exit_status (main connect [prog; path]) = 0%Z /\
      stdout (main connect [prog; path]) = generate_schema db +:+ nl /\
      stderr (main connect [prog; path]) = "").
Proof.
  split.
  - intros argv Hlen.
    assert (Hm : main connect argv =
                 {| stdout := usage +:+ nl; stderr := ""; exit_status := 1 |}).
    { destruct argv as [|a0 [|a1 [|a2 argv]]]; try reflexivity.
      simpl in Hlen. lia. }
    rewrite Hm. cbn [exit_status stdout stderr]. repeat split.
    intros db' Heq. destruct (generate_schema_head db') as [rest Hrest].
    rewrite Hrest in Heq. discriminate.
  - intros prog path db Hconn. unfold main. rewrite Hconn. repeat split.
Qed.

Lemma main_outcome_witness :
  exit_status (main blog_connect ["generate_schema.py"]) = 1%Z /\
  exit_status (main blog_connect ["generate_schema.py"; "blog.db"]) = 0%Z.
Proof.
  destruct (main_outcome blog_connect) as [Husage Hrun].
  split.
  - apply (Husage ["generate_schema.py"]). simpl. lia.
  - apply (Hrun "generate_schema.py" "blog.db" blog_db). reflexivity.
Defined.

(** The usage line of a run without arguments is on standard output; the
    diagnostic stream stays empty. *)
Lemma usage_not_on_stderr :
  ~ (exit_status (main blog_connect ["generate_schema.py"]) = 1%Z /\
     stderr (main blog_connect ["generate_schema.py"]) <> "") /\
  stdout (main blog_connect ["generate_schema.py"]) = usage +:+ nl.
Proof. split; [|reflexivity]. intros [_ H]. now apply H. Qed.

(** ** The sample catalog *)

Example blog_tables : tables blog_db = ["posts"; "users"].
Proof. vm_compute. reflexivity. Qed.

Example blog_schema :
  generate_schema_lines blog_db =
  [ "// @generated automatically by generate_schema.py"; "";
    "diesel::table! {";
    "    posts (id) {";
    "        id -> Integer,";
    "        user_id -> Nullable<Integer>,";
    "    }"; "}"; "";
    "diesel::table! {";
    "    users (id) {";
    "        id -> Integer,";
    "        name -> Text,";
    "        age -> Nullable<Integer>,";
    "    }"; "}"; "";
    "diesel::joinable!(posts -> users (user_id));"; "";
    "diesel::allow_tables_to_appear_in_same_query!(";
    "    posts,";
    "    users,";
    ");" ].
Proof. vm_compute. reflexivity. Qed.

Example odd_schema :
  generate_schema_lines odd_db =
  [ "// @generated automatically by generate_schema.py"; "";
    "diesel::table! {";
    "    node (id) {";
    "        key -> Integer,";
    "        parent -> Nullable<Integer>,";
    "    }"; "}"; "";
    "diesel::table! {";
    "    t (id) {";
    "         -> Integer,";
    "        x -> Nullable<Text>,";
    "    }"; "}"; "";
    "diesel::allow_tables_to_appear_in_same_query!(";
    "    node,";
    "    t,";
    ");" ].
Proof. vm_compute. reflexivity. Qed.


(** * Further properties of the script *)

(** ** The rule list of the normalizer *)

(** [X1] A type name in which INT occurs, in any letter case and at any
    place, is an Integer, whatever else the name contains: the first rule
    hides all the others. *)
Theorem int_rule_first (a x b : ustring) (nullable : bool) :
  upper x = "INT" ->
  sql_type_to_diesel_type (a ++ x ++ b) nullable
  = if nullable then "Nullable<Integer>" else "Integer".
Proof.
  intros Hx.
  assert (Hc : contains "INT" (upper (a ++ x ++ b)) = true).
  { apply contains_spec. exists (upper a), (upper b).
    now rewrite !upper_app, Hx. }
  unfold sql_type_to_diesel_type, diesel_type. rewrite Hc.
  now destruct nullable.
Qed.

Lemma int_rule_first_witness :
  sql_type_to_diesel_type "Point" true = "Nullable<Integer>".
Proof. apply (int_rule_first "Po" "int" "" true). reflexivity. Defined.

Lemma type_mapping_entries (u : ustring) (v : string) :
  type_mapping !! u = Some v ->
  (u, v) ∈ [ ("INTEGER" : ustring, "Integer"); ("TEXT" : ustring, "Text");
             ("REAL" : ustring, "Float"); ("FLOAT" : ustring, "Float");
             ("BOOLEAN" : ustring, "Bool"); ("BOOL" : ustring, "Bool");
             ("DATE" : ustring, "Date"); ("TIME" : ustring, "Time");
             ("DATETIME" : ustring, "Timestamp");
             ("TIMESTAMP" : ustring, "Timestamp");
             ("BLOB" : ustring, "Binary") ].
Proof. apply elem_of_list_to_map_2. Qed.

(** Case analysis on an entry of the dictionary. *)
Ltac entries H :=
  repeat (apply elem_of_cons in H as [H|H]; [inversion H; subst; clear H|]);
  try (apply elem_of_nil in H; destruct H).

(** Case analysis along the rule list of [diesel_type]. *)
Ltac rules u :=
  destruct (contains "INT" u); [try discriminate|];
  destruct (contains "CHAR" u); [try discriminate|];
  destruct (contains "TEXT" u); [try discriminate|];
  destruct (contains "REAL" u); [try discriminate|];
  destruct (contains "FLOAT" u); [try discriminate|];
  destruct (contains "DOUBLE" u); [try discriminate|];
  destruct (contains "DATE" u);
    [destruct (contains "TIME" u); try discriminate|];
  cbn [orb].

(** [X2] Binary, Time and Bool are reached through the dictionary only, so
    only by the whole type name: the result is Binary exactly for BLOB, Time
    exactly for TIME, and Bool exactly for BOOL and BOOLEAN, in any letter
    case.  A name that merely contains such a word is not of that type. *)
Theorem exact_name_types (s : ustring) :
  (diesel_type s = "Binary" <-> upper s = "BLOB") /\
  (diesel_type s = "Time" <-> upper s = "TIME") /\
  (diesel_type s = "Bool" <-> upper s = "BOOL" \/ upper s = "BOOLEAN").
Proof.
  unfold diesel_type. generalize (upper s). intros u.
  split; [|split]; split.
  - rules u. intros H.
    destruct (type_mapping !! u) as [v|] eqn:Hl; [|discriminate].
    simpl in H. subst v. apply type_mapping_entries in Hl.
    entries Hl; reflexivity.
  - intros ->. vm_compute. reflexivity.
  - rules u. intros H.
    destruct (type_mapping !! u) as [v|] eqn:Hl; [|discriminate].
    simpl in H. subst v. apply type_mapping_entries in Hl.
    entries Hl; reflexivity.
  - intros ->. vm_compute. reflexivity.
  - rules u. intros H.
    destruct (type_mapping !! u) as [v|] eqn:Hl; [|discriminate].
    simpl in H. subst v. apply type_mapping_entries in Hl.
    entries Hl; auto.
  - intros [-> | ->]; vm_compute; reflexivity.
Qed.

(** A key of the dictionary that a substring rule takes before the lookup. *)
Ltac dead_entry :=
  exfalso;
  repeat match goal with
         | H : contains _ _ = false |- _ =>
             vm_compute in H; try discriminate H; clear H
         end;
  fail.

(** [X3] When none of the substring rules applies, the dictionary can only
    answer with the entries BOOLEAN, BOOL, TIME, TIMESTAMP and BLOB: its
    entries INTEGER, TEXT, REAL, FLOAT, DATE and DATETIME are taken by a
    substring rule before the lookup and are never used. *)
Theorem dictionary_entries_reached (s : ustring) (v : string) :
  contains "INT" (upper s)
    || (contains "CHAR" (upper s) || contains "TEXT" (upper s))
    || (contains "REAL" (upper s) || contains "FLOAT" (upper s)
        || contains "DOUBLE" (upper s))
    || contains "DATE" (upper s) = false ->
  type_mapping !! upper s = Some v ->
  (upper s, v) ∈ [ ("BOOLEAN" : ustring, "Bool"); ("BOOL" : ustring, "Bool");
                   ("TIME" : ustring, "Time");
                   ("TIMESTAMP" : ustring, "Timestamp");
                   ("BLOB" : ustring, "Binary") ] /\
  diesel_type s = v.
Proof.
  unfold diesel_type. generalize (upper s). intros u Hrules Hl.
  repeat match goal with
         | H : _ || _ = false |- _ => apply orb_false_iff in H as [? ?]
         end.
  split.
  - apply type_mapping_entries in Hl.
    entries Hl; try dead_entry; set_solver.
  - repeat match goal with
           | H : contains _ u = false |- _ => rewrite H; clear H
           end.
    cbn [orb]. now rewrite Hl.
Qed.

Lemma dictionary_entries_reached_witness : diesel_type "bool" = "Bool".
Proof. apply (dictionary_entries_reached "bool" "Bool"); reflexivity. Defined.

(** [X13] A type name the script does not know is no error: when no
    substring rule applies and the name, in upper case, is none of BOOLEAN,
    BOOL, TIME, TIMESTAMP and BLOB, the dictionary has no entry for it and the
    column is declared as Text. *)
Theorem unknown_type_is_text (s : ustring) (nullable : bool) :
  contains "INT" (upper s)
    || (contains "CHAR" (upper s) || contains "TEXT" (upper s))
    || (contains "REAL" (upper s) || contains "FLOAT" (upper s)
        || contains "DOUBLE" (upper s))
    || contains "DATE" (upper s) = false ->
  upper s ∉ [ ("BOOLEAN" : ustring); ("BOOL" : ustring); ("TIME" : ustring);
              ("TIMESTAMP" : ustring); ("BLOB" : ustring) ] ->
  type_mapping !! upper s = None /\
  sql_type_to_diesel_type s nullable
  = if nullable then "Nullable<Text>" else "Text".
Proof.
  unfold sql_type_to_diesel_type, diesel_type.
  generalize (upper s). intros u Hrules Hkeys.
  repeat match goal with
         | H : _ || _ = false |- _ => apply orb_false_iff in H as [? ?]
         end.
  assert (Hl : type_mapping !! u = None).
  { destruct (type_mapping !! u) as [v|] eqn:Hl; [|reflexivity].
    apply type_mapping_entries in Hl.
    entries Hl; try dead_entry; destruct Hkeys; set_solver. }
  split; [exact Hl|].
  repeat match goal with
         | H : contains _ u = false |- _ => rewrite H; clear H
         end.
  cbn [orb]. rewrite Hl. now destruct nullable.
Qed.

Lemma unknown_type_is_text_witness :
  sql_type_to_diesel_type "Numeric(10,2)" true = "Nullable<Text>".
Proof.
  apply (unknown_type_is_text "Numeric(10,2)" true).
  - reflexivity.
  - intros H. cbv in H.
    repeat (apply elem_of_cons in H as [H|H]; [discriminate H|]).
    now apply elem_of_nil in H.
Defined.

(** ** The selection of the tables *)

Lemma tables_nil db :
  filter is_user_table (sqlite_master db) = [] -> tables db = [].
Proof.
  intros Hf. apply Permutation_nil_r. now rewrite tables_Permutation, Hf.
Qed.

(** [X5] A catalog without user tables is no error: the document is the
    header followed by a collection statement that lists nothing. *)
Theorem generate_schema_no_tables (db : Database) :
  (forall r, r ∈ sqlite_master db -> ~ is_user_table r) ->
  generate_schema_lines db =
    [ "// @generated automatically by generate_schema.py"; "";
      "diesel::allow_tables_to_appear_in_same_query!("; ");" ] /\
  generate_schema db =
    "// @generated automatically by generate_schema.py" +:+ nl +:+ nl
      +:+ "diesel::allow_tables_to_appear_in_same_query!(" +:+ nl +:+ ");".
Proof.
  intros Hnone.
  assert (Ht : tables db = []).
  { apply tables_nil. apply elem_of_nil_inv. intros r Hr.
    apply list_elem_of_filter in Hr as [Hu Hr]. exact (Hnone r Hr Hu). }
  assert (Hl : generate_schema_lines db =
    [ "// @generated automatically by generate_schema.py"; "";
      "diesel::allow_tables_to_appear_in_same_query!("; ");" ]).
  { unfold generate_schema_lines. rewrite Ht. reflexivity. }
  split; [exact Hl|]. unfold generate_schema. rewrite Hl. reflexivity.
Qed.

Lemma generate_schema_no_tables_witness :
  generate_schema_lines bare_db =
    [ "// @generated automatically by generate_schema.py"; "";
      "diesel::allow_tables_to_appear_in_same_query!("; ");" ].
Proof.
  apply (generate_schema_no_tables bare_db).
  intros r Hr [Hty Hn].
  apply elem_of_cons in Hr as [->|Hr]; [discriminate|].
  apply list_elem_of_singleton in Hr as ->. now apply Hn.
Defined.

(** The selected rows alone decide the list of tables. *)
Lemma tables_filter_Permutation db1 db2 :
  filter is_user_table (sqlite_master db1)
    ≡ₚ filter is_user_table (sqlite_master db2) ->
  tables db1 = tables db2.
Proof.
  intros Hp. unfold tables, select_names. f_equal.
  now apply select_rows_unique.
Qed.

(** [X6] Rows of [sqlite_master] that the query does not select have no
    influence on the document: two catalogs with the same user-table rows,
    stored in any order among any indexes, views, triggers and sequence
    tables, and with the same columns and foreign keys for these tables,
    give the same text. *)
Theorem other_rows_ignored (db1 db2 : Database) :
  filter is_user_table (sqlite_master db1)
    ≡ₚ filter is_user_table (sqlite_master db2) ->
  (forall t, t ∈ tables db1 -> table_info db1 t = table_info db2 t) ->
  (forall t, t ∈ tables db1 -> foreign_key_list db1 t = foreign_key_list db2 t) ->
  generate_schema db1 = generate_schema db2.
Proof.
  intros Hm Hc Hf. unfold generate_schema. f_equal.
  rewrite !generate_schema_lines_layout. unfold relationship_statements.
  rewrite <- (tables_filter_Permutation db1 db2 Hm).
  assert (Hb : tables db1 ≫= table_block db1 = tables db1 ≫= table_block db2).
  { apply bind_ext_elem_of. intros t Ht. unfold table_block.
    now rewrite (Hc t Ht). }
  assert (Hj : tables db1 ≫= (fun t => foreign_key_list db1 t ≫= statements_for t)
             = tables db1 ≫= (fun t => foreign_key_list db2 t ≫= statements_for t)).
  { apply bind_ext_elem_of. intros t Ht. now rewrite (Hf t Ht). }
  now rewrite Hb, Hj.
Qed.

Lemma other_rows_ignored_witness :
  generate_schema blog_db = generate_schema blog_db_tables_only.
Proof.
  apply other_rows_ignored.
  - apply perm_swap.
  - intros t _. reflexivity.
  - intros t _. reflexivity.
Defined.

(** ** The blocks, line by line *)

Lemma truthy_false z : truthy z = false <-> z = 0%Z.
Proof.
  unfold truthy. rewrite negb_false_iff. apply Z.eqb_eq.
Qed.

Lemma truthy_true z : truthy z = true <-> z <> 0%Z.
Proof.
  unfold truthy. rewrite negb_true_iff. apply Z.eqb_neq.
Qed.

(** [X7] The key named in the line that opens a block: when the first
    column, in the order of the rows, with a non-zero primary-key rank has a
    non-empty name, it is that column, whatever rank it has and whatever
    columns of the key follow it (of a composite key only this one column is
    declared); when no column has a non-zero rank, it is [id]. *)
Theorem declared_primary_key (db : Database) (st : EmitState) (t : string) :
  (forall before col after,
      table_info db t = before ++ col :: after ->
      Forall (fun c => is_pk c = 0%Z) before ->
      is_pk col <> 0%Z -> col_name col <> "" ->
      schema_lines (emit_table db st t) !! (length (schema_lines st) + 1)
      = Some (table_line t (col_name col))) /\
  (Forall (fun c => is_pk c = 0%Z) (table_info db t) ->
   schema_lines (emit_table db st t) !! (length (schema_lines st) + 1)
   = Some (table_line t "id")).
Proof.
  assert (Hline :
    schema_lines (emit_table db st t) !! (length (schema_lines st) + 1)
    = Some (table_line t (primary_key (table_info db t)))).
  { rewrite emit_table_schema_lines.
    rewrite <- (app_nil_r (table_block db t)).
    rewrite lookup_middle; [reflexivity|].
    rewrite table_block_length. lia. }
  rewrite Hline. split.
  - intros before col after Hcols Hbefore Hcol Hname.
    rewrite (primary_key_found (table_info db t) (col_name col));
      [reflexivity| |assumption].
    apply find_primary_key_Some. exists before, col, after.
    repeat split; [assumption| |now apply truthy_true].
    eapply Forall_impl; [exact Hbefore|]. intros c Hc. now apply truthy_false.
  - intros Hnone. rewrite primary_key_fallback; [reflexivity|].
    apply find_primary_key_None.
    eapply Forall_impl; [exact Hnone|]. intros c Hc. now apply truthy_false.
Qed.

Lemma declared_primary_key_witness :
  schema_lines
    (emit_table membership_db {| schema_lines := header; joinable_lines := [] |}
       "membership") !! 3
  = Some "    membership (team) {".
Proof.
  destruct (declared_primary_key membership_db
              {| schema_lines := header; joinable_lines := [] |} "membership")
    as [Hkey _].
  apply (Hkey [column 0 "note" "TEXT" 0 0] (column 1 "team" "INT" 0 2)
              [column 2 "person" "INT" 0 1]).
  - reflexivity.
  - repeat constructor.
  - discriminate.
  - discriminate.
Defined.

(** [X8] Inside the block of a table the columns follow the two opening
    lines one per line, in the order of the rows of [table_info], and the
    three closing lines follow the last column. *)
Theorem block_contents (db : Database) (i : nat) (t : string) :
  tables db !! i = Some t ->
  (forall k col,
      table_info db t !! k = Some col ->
      generate_schema_lines db !! (block_start db i + (2 + k))
      = Some (column_line col)) /\
  generate_schema_lines db
    !! (block_start db i + (2 + length (table_info db t))) = Some "    }" /\
  generate_schema_lines db
    !! (block_start db i + (3 + length (table_info db t))) = Some "}" /\
  generate_schema_lines db
    !! (block_start db i + (4 + length (table_info db t))) = Some "" /\
  block_start db (S i) = block_start db i + (5 + length (table_info db t)).
Proof.
  intros Hi.
  assert (Hclose : forall n,
    n < 3 ->
    generate_schema_lines db !! (block_start db i + (2 + length (table_info db t) + n))
    = ["    }"; "}"; ""] !! n).
  { intros n Hn. rewrite (block_lines db i t _ Hi)
      by (rewrite table_block_length; lia).
    unfold table_block. rewrite lookup_app_r by (simpl; lia).
    rewrite lookup_app_r by (rewrite length_fmap; simpl; lia).
    rewrite length_fmap. f_equal. simpl. lia. }
  split; [|split; [|split; [|split]]].
  - intros k col Hk. pose proof (lookup_lt_Some _ _ _ Hk) as Hlt.
    rewrite (block_lines db i t _ Hi) by (rewrite table_block_length; lia).
    unfold table_block. rewrite lookup_app_r by (simpl; lia).
    rewrite lookup_app_l by (rewrite length_fmap; simpl; lia).
    rewrite list_lookup_fmap.
    cbn [length]. replace (2 + k - 2) with k by lia.
    now rewrite Hk.
  - replace (2 + length (table_info db t))
      with (2 + length (table_info db t) + 0) by lia.
    apply (Hclose 0). lia.
  - replace (3 + length (table_info db t))
      with (2 + length (table_info db t) + 1) by lia.
    apply (Hclose 1). lia.
  - replace (4 + length (table_info db t))
      with (2 + length (table_info db t) + 2) by lia.
    apply (Hclose 2). lia.
  - rewrite (block_start_S db i t Hi), table_block_length. reflexivity.
Qed.

Lemma block_contents_witness :
  generate_schema_lines blog_db !! (block_start blog_db 1 + (2 + 1))
  = Some "        name -> Text,".
Proof.
  destruct (block_contents blog_db 1 "users") as [Hcols _].
  - vm_compute. reflexivity.
  - apply (Hcols 1 (column 1 "name" "TEXT" 1 0)). reflexivity.
Defined.

(** [X9] When every foreign key of every table refers to its own table, in
    particular when there is no foreign key at all, the document has no
    joinable statement and no blank line for them: the collection statement
    follows the last block. *)
Theorem no_joinable_section (db : Database) :
  (forall t fk, t ∈ tables db -> fk ∈ foreign_key_list db t ->
                referenced_table fk = t) ->
  generate_schema_lines db =
    header ++ (tables db ≫= table_block db) ++ collection_statement (tables db).
Proof.
  intros Hself. rewrite generate_schema_lines_layout.
  assert (Hnone : relationship_statements db = []).
  { unfold relationship_statements.
    induction (tables db) as [|t ts IH]; [reflexivity|].
    rewrite bind_cons, IH.
    - rewrite app_nil_r, statements_for_filter.
      assert (Hf : filter (fun fk => referenced_table fk <> t)
                     (foreign_key_list db t) = []).
      { apply elem_of_nil_inv. intros fk Hfk.
        apply list_elem_of_filter in Hfk as [Hne Hin].
        apply Hne, Hself; [apply list_elem_of_here|assumption]. }
      now rewrite Hf.
    - intros t' fk Ht'. apply Hself. now apply list_elem_of_further. }
  rewrite Hnone. reflexivity.
Qed.

Lemma no_joinable_section_witness :
  generate_schema_lines odd_db =
    header ++ (tables odd_db ≫= table_block odd_db)
      ++ collection_statement (tables odd_db).
Proof.
  apply no_joinable_section. intros t fk _. simpl.
  destruct (decide (t = "node")) as [->|_].
  - intros Hfk. apply list_elem_of_singleton in Hfk as ->. reflexivity.
  - intros Hfk. now apply elem_of_nil in Hfk.
Defined.

(** ** The text of the document *)

Lemma join_cons sep l1 l2 lines :
  join sep (l1 :: l2 :: lines) = l1 +:+ sep +:+ join sep (l2 :: lines).
Proof. reflexivity. Qed.

Lemma join_snoc sep lines l :
  lines <> [] -> join sep (lines ++ [l]) = join sep lines +:+ sep +:+ l.
Proof.
  induction lines as [|l1 [|l2 lines] IH]; intros Hne.
  - congruence.
  - reflexivity.
  - change ((l1 :: l2 :: lines) ++ [l]) with (l1 :: l2 :: (lines ++ [l])).
    rewrite !join_cons.
    change (l2 :: lines ++ [l]) with ((l2 :: lines) ++ [l]).
    rewrite IH by discriminate. now rewrite !append_assoc.
Qed.

(** [X10] The text always starts with the line of the generator comment and
    ends with the closing marker of the collection statement, with no line
    feed after it; [print] then adds the only trailing line feed. *)
Theorem generate_schema_frame (db : Database) :
  exists body,
    generate_schema db =
      "// @generated automatically by generate_schema.py" +:+ nl +:+ body
        +:+ nl +:+ ");".
Proof.
  unfold generate_schema. rewrite generate_schema_lines_layout.
  unfold collection_statement, header.
  set (rest := (tables db ≫= table_block db) ++ relationship_statements db
                 ++ separator (relationship_statements db)
                 ++ ["diesel::allow_tables_to_appear_in_same_query!("]
                 ++ ((fun t => "    " +:+ t +:+ ",") <$> tables db)).
  exists (join nl ("" :: rest)).
  assert (Hl : ["// @generated automatically by generate_schema.py"; ""]
                 ++ (tables db ≫= table_block db) ++ relationship_statements db
                 ++ separator (relationship_statements db)
                 ++ ["diesel::allow_tables_to_appear_in_same_query!("]
                 ++ ((fun t => "    " +:+ t +:+ ",") <$> tables db) ++ [");"]
               = "// @generated automatically by generate_schema.py"
                   :: (("" :: rest) ++ [");"])).
  { unfold rest. cbn [app]. now rewrite <- !app_assoc. }
  rewrite Hl. change (("" :: rest) ++ [");"]) with ("" :: (rest ++ [");"])).
  rewrite join_cons. change ("" :: rest ++ [");"]) with (("" :: rest) ++ [");"]).
  now rewrite join_snoc by discriminate.
Qed.

Lemma no_newline_app a b :
  no_newline (a +:+ b) = no_newline a && no_newline b.
Proof.
  induction a as [|c a IH]; [reflexivity|].
  rewrite append_cons. cbn [no_newline]. now rewrite IH, andb_assoc.
Qed.

Lemma split_char_one_line a :
  no_newline a = true -> split_char "010" a = [a].
Proof.
  induction a as [|c a IH]; [reflexivity|]. cbn [no_newline split_char].
  intros [Hc Ha]%andb_true_iff. apply negb_true_iff, bool_decide_eq_false in Hc.
  destruct (decide (c = "010"%char)); [contradiction|]. now rewrite IH.
Qed.

Lemma split_char_first_line a b :
  no_newline a = true ->
  split_char "010" (a +:+ nl +:+ b) = a :: split_char "010" b.
Proof.
  induction a as [|c a IH]; [reflexivity|].
  rewrite append_cons. cbn [no_newline split_char].
  intros [Hc Ha]%andb_true_iff. apply negb_true_iff, bool_decide_eq_false in Hc.
  destruct (decide (c = "010"%char)); [contradiction|]. now rewrite IH.
Qed.

(** Splitting at the line feeds undoes [join] on lines without line feeds. *)
Lemma split_char_join lines :
  lines <> [] -> Forall (fun l => no_newline l = true) lines ->
  split_char "010" (join nl lines) = lines.
Proof.
  induction lines as [|l1 [|l2 lines] IH]; intros Hne Hall.
  - congruence.
  - apply split_char_one_line. now apply Forall_inv in Hall.
  - rewrite join_cons. apply Forall_cons in Hall as [H1 Hall].
    rewrite split_char_first_line by assumption.
    now rewrite IH by (discriminate || assumption).
Qed.

Lemma render_nullable_one_line t nullable :
  no_newline (render_nullable t nullable) = true.
Proof. destruct t, nullable; reflexivity. Qed.

Lemma sql_type_to_diesel_type_one_line s nullable :
  no_newline (sql_type_to_diesel_type s nullable) = true.
Proof.
  unfold sql_type_to_diesel_type. rewrite diesel_type_classify.
  apply (render_nullable_one_line (classify s) nullable).
Qed.

(** The declared key is [id] or the name of a column of the table. *)
Lemma primary_key_origin columns :
  primary_key columns = "id" \/
  exists col, col ∈ columns /\ col_name col = primary_key columns.
Proof.
  unfold primary_key. destruct (find_primary_key columns) as [name|] eqn:Hf;
    [|now left].
  destruct (decide (name = "")); [now left|]. right.
  apply find_primary_key_Some in Hf as (before & col & after & -> & _ & _ & Hn).
  exists col. split; [|assumption].
  apply elem_of_app. right. apply list_elem_of_here.
Qed.

Lemma generate_schema_lines_one_line db :
  names_on_one_line db ->
  Forall (fun l => no_newline l = true) (generate_schema_lines db).
Proof.
  intros Hnames. rewrite generate_schema_lines_layout.
  unfold relationship_statements, collection_statement.
  repeat apply Forall_app_2.
  - repeat constructor.
  - apply Forall_bind, Forall_forall. intros t Ht.
    destruct (Hnames t Ht) as (Hname & Hcols & _).
    unfold compose, table_block. repeat apply Forall_app_2.
    + constructor; [reflexivity|]. constructor; [|constructor].
      unfold table_line. rewrite !no_newline_app, Hname.
      destruct (primary_key_origin (table_info db t)) as [->|(col & Hc & <-)].
      * reflexivity.
      * now rewrite (Hcols col Hc).
    + apply Forall_fmap, Forall_forall. intros col Hc.
      unfold compose, column_line.
      now rewrite !no_newline_app, (Hcols col Hc),
        sql_type_to_diesel_type_one_line.
    + repeat constructor.
  - apply Forall_bind, Forall_forall. intros t Ht.
    destruct (Hnames t Ht) as (Hname & _ & Hfks).
    unfold compose. apply Forall_bind, Forall_forall. intros fk Hfk.
    destruct (Hfks fk Hfk) as [Href Hfrom].
    unfold compose, statements_for.
    destruct (decide (referenced_table fk = t)); constructor; [|constructor].
    unfold joinable_line. now rewrite !no_newline_app, Hname, Href, Hfrom.
  - destruct (tables db ≫= _); repeat constructor.
  - repeat constructor.
  - apply Forall_fmap, Forall_forall. intros t Ht.
    destruct (Hnames t Ht) as (Hname & _). unfold compose.
    now rewrite !no_newline_app, Hname.
  - repeat constructor.
Qed.

(** [X11] When no table name, column name, referenced table or referencing
    column of the selected tables contains a line feed, splitting the text at
    its line feeds gives back the list of lines the script assembled: each
    element of [schema_lines] is one line of the output. *)
Theorem split_generate_schema (db : Database) :
  names_on_one_line db ->
  split_char "010" (generate_schema db) = generate_schema_lines db.
Proof.
  intros Hnames. unfold generate_schema. apply split_char_join.
  - rewrite generate_schema_lines_layout. discriminate.
  - now apply generate_schema_lines_one_line.
Qed.

Lemma split_generate_schema_witness :
  split_char "010" (generate_schema blog_db) = generate_schema_lines blog_db.
Proof.
  apply split_generate_schema. intros t Ht.
  change (tables blog_db) with ["posts"; "users"] in Ht. members Ht.
  - split; [reflexivity|]. split.
    + intros col Hc. cbn in Hc. members Hc; reflexivity.
    + intros fk Hfk. cbn in Hfk. members Hfk. split; reflexivity.
  - split; [reflexivity|]. split.
    + intros col Hc. cbn in Hc. members Hc; reflexivity.
    + intros fk Hfk. cbn in Hfk. members Hfk.
Defined.

(** ** What the emitter does not read *)

Lemma same_column_line c1 c2 :
  same_column c1 c2 -> column_line c1 = column_line c2.
Proof.
  intros (Hn & Ht & Hnn & Hpk). unfold column_line.
  rewrite Hn, Hnn, Hpk.
  now rewrite (sql_type_to_diesel_type_upper_eq _ _ _ Ht).
Qed.

Lemma same_column_primary_key cols1 cols2 :
  Forall2 same_column cols1 cols2 -> primary_key cols1 = primary_key cols2.
Proof.
  intros Hall. unfold primary_key.
  assert (Hf : find_primary_key cols1 = find_primary_key cols2).
  { induction Hall as [|c1 c2 cols1 cols2 (Hn & _ & _ & Hpk) _ IH];
      [reflexivity|].
    cbn [find_primary_key]. now rewrite Hpk, Hn, IH. }
  now rewrite Hf.
Qed.

Lemma same_column_lines cols1 cols2 :
  Forall2 same_column cols1 cols2 ->
  column_line <$> cols1 = column_line <$> cols2.
Proof.
  induction 1 as [|c1 c2 cols1 cols2 Hc _ IH]; [reflexivity|].
  rewrite !fmap_cons. now rewrite (same_column_line c1 c2 Hc), IH.
Qed.

Lemma same_reference_statements t fks1 fks2 :
  Forall2 same_reference fks1 fks2 ->
  fks1 ≫= statements_for t = fks2 ≫= statements_for t.
Proof.
  induction 1 as [|f1 f2 fks1 fks2 [Hr Hc] _ IH]; [reflexivity|].
  rewrite !bind_cons, IH. f_equal.
  unfold statements_for, joinable_line. now rewrite Hr, Hc.
Qed.

(** [X12] The document depends on a column row only through its name, its
    type up to letter case and the truth values of its not-null flag and
    primary-key rank, and on a foreign-key row only through the referenced
    table and the referencing column: column ids, default values, the size of
    a key rank, the key id and sequence number, the referenced column and the
    update, delete and match settings never reach the text. *)
Theorem unread_fields_ignored (db1 db2 : Database) :
  sqlite_master db1 = sqlite_master db2 ->
  (forall t, t ∈ tables db1 ->
             Forall2 same_column (table_info db1 t) (table_info db2 t)) ->
  (forall t, t ∈ tables db1 ->
             Forall2 same_reference (foreign_key_list db1 t)
               (foreign_key_list db2 t)) ->
  generate_schema db1 = generate_schema db2.
Proof.
  intros Hm Hc Hf.
  assert (Ht : tables db2 = tables db1) by (unfold tables; now rewrite Hm).
  unfold generate_schema. f_equal.
  rewrite !generate_schema_lines_layout. unfold relationship_statements.
  rewrite Ht.
  assert (Hb : tables db1 ≫= table_block db1 = tables db1 ≫= table_block db2).
  { apply bind_ext_elem_of. intros t Hin. unfold table_block.
    now rewrite (same_column_primary_key _ _ (Hc t Hin)),
      (same_column_lines _ _ (Hc t Hin)). }
  assert (Hj : tables db1 ≫= (fun t => foreign_key_list db1 t ≫= statements_for t)
             = tables db1 ≫= (fun t => foreign_key_list db2 t ≫= statements_for t)).
  { apply bind_ext_elem_of. intros t Hin.
    apply same_reference_statements, Hf, Hin. }
  now rewrite Hb, Hj.
Qed.

Lemma unread_fields_ignored_witness :
  generate_schema blog_db = generate_schema blog_db_variant.
Proof.
  apply unread_fields_ignored.
  - reflexivity.
  - intros t Ht. change (tables blog_db) with ["posts"; "users"] in Ht.
    members Ht; cbn; repeat constructor.
  - intros t Ht. change (tables blog_db) with ["posts"; "users"] in Ht.
    members Ht; cbn; repeat constructor.
Defined.

(** ** Statements that fail *)

Lemma emit_tables_run_rows e ts st :
  (forall t, t ∈ ts ->
     (exists columns, execute_table_info e t = Rows columns) /\
     (exists foreign_keys, execute_foreign_key_list e t = Rows foreign_keys)) ->
  emit_tables_run e ts st = inl (fold_left (emit_table (fetched e)) ts st).
Proof.
  revert st. induction ts as [|t ts IH]; intros st Hrows; [reflexivity|].
  destruct (Hrows t) as [[columns Hc] [foreign_keys Hf]];
    [apply list_elem_of_here|].
  cbn [emit_tables_run fold_left]. rewrite Hc, Hf.
  rewrite IH by (intros t' Ht'; apply Hrows; now apply list_elem_of_further).
  unfold emit_table, fetched. cbn [table_info foreign_key_list].
  now rewrite Hc, Hf.
Qed.

(** When every statement is answered, the call returns the document of the
    rows. *)
Lemma generate_schema_run_rows e :
  (forall t, t ∈ select_names (engine_master e) ->
     (exists columns, execute_table_info e t = Rows columns) /\
     (exists foreign_keys, execute_foreign_key_list e t = Rows foreign_keys)) ->
  generate_schema_run e = Returned (generate_schema (fetched e)).
Proof.
  intros Hrows. unfold generate_schema_run.
  now rewrite (emit_tables_run_rows e _ _ Hrows).
Qed.

Lemma emit_tables_run_raises e ts st t message :
  t ∈ ts ->
  execute_table_info e t = OperationalError message ->
  exists message', emit_tables_run e ts st = inr message'.
Proof.
  intros Ht He. revert st. induction ts as [|t' ts IH]; intros st.
  - now apply elem_of_nil in Ht.
  - cbn [emit_tables_run].
    destruct (execute_table_info e t') as [columns|m] eqn:Hc; [|now exists m].
    destruct (execute_foreign_key_list e t') as [fks|m]; [|now exists m].
    apply elem_of_cons in Ht as [->|Ht]; [congruence|]. now apply IH.
Qed.

(** When the statement for one of the tables is rejected, the call ends
    with the exception and returns no text. *)
Lemma generate_schema_run_raises e t message :
  t ∈ select_names (engine_master e) ->
  execute_table_info e t = OperationalError message ->
  exists message', generate_schema_run e = Propagated message'.
Proof.
  intros Ht He. unfold generate_schema_run.
  destruct (emit_tables_run_raises e _
              {| schema_lines := header; joinable_lines := [] |} t message
              Ht He) as [m Hm].
  rewrite Hm. now exists m.
Qed.

(** [C8] A database with a table named [my table]: the statement
    [PRAGMA table_info(my table)] of the loop is rejected by SQLite, the
    call of [generate_schema] ends with the exception, and the run prints
    the traceback and no document and ends with status 1.  With the sample
    catalog, whose names need no quotes, the call returns the document. *)
Theorem unquoted_name_raises :
  select_names (engine_master spaced_engine) = ["a"; "my table"] /\
  generate_schema_run spaced_engine
    = Propagated "sqlite3.OperationalError: syntax error" /\
  exit_status
    (main (fun _ => connection spaced_engine) ["generate_schema.py"; "my.db"])
    = 1%Z /\
  stdout
    (main (fun _ => connection spaced_engine) ["generate_schema.py"; "my.db"])
    = "" /\
  generate_schema_run blog_engine = Returned (generate_schema blog_db).
Proof. repeat split; vm_compute; reflexivity. Qed.

(** ** The table order of the sample catalogs *)

Example utf16_tables :
  tables utf16_db
  = [ String "196" (String "128" ""); "z"; String "195" (String "169" "") ].
Proof. vm_compute. reflexivity. Qed.

(** ** Type names beyond ASCII *)

(** [ınt] with a dotless i (U+0131), [ﬂoat] with the ligature fl (U+FB02)
    and [tıme]: [str.upper] gives INT, FLOAT and TIME. *)
Example dotless_int :
  sql_type_to_diesel_type [305; 110; 116]%N false = "Integer".
Proof. vm_compute. reflexivity. Qed.

Example ligature_float :
  sql_type_to_diesel_type [64258; 111; 97; 116]%N true = "Nullable<Float>".
Proof. vm_compute. reflexivity. Qed.

Example dotless_time :
  sql_type_to_diesel_type [116; 305; 109; 101]%N false = "Time".
Proof. vm_compute. reflexivity. Qed.
